(** * rec-engine: the recommendation-decision engine, embedded in Rocq

    A shallow embedding of [app/services/recommendation_service.py],
    [app/services/data_preparation.py], [app/models/simple_recommender.py],
    [app/models/schemas.py] and the [/recommendations] handler of
    [app/main.py], followed by the properties established about them.

    Conventions.
    - Python [float] is IEEE-754 binary64, hence Rocq's primitive [float];
      [int] is [Z]; [str] is [string] (names are treated as byte strings).
    - A call that may raise returns a [result]; the first exception aborts
      the computation, as in Python.
    - A pandas DataFrame is the list of its rows; [df.empty] is [is_nil].
    - The data store, the fitted scaler and the fitted random forest are
      collaborators: they appear as functions whose behaviour is arbitrary.
    - Logging has no effect on results and is left out. *)

From Stdlib Require Import ZArith Floats String Ascii List Lia.
From stdpp Require Import gmap strings list sorting.
Import ListNotations.

Set Warnings "-inexact-float".

Local Open Scope string_scope.
Local Open Scope Z_scope.

(* ===================================================================== *)
(** ** Python runtime: exceptions, strings, floats, sorting *)
(* ===================================================================== *)

Module Py.

(** The exception classes that matter to the handler of [main.py]:
    [ValueError] is answered with 400, every other [Exception] with 500. *)
Inductive exn : Type :=
| ValueError (msg : string)
| OverflowError (msg : string)
| FileNotFoundError (msg : string)
| OtherException (msg : string).

Definition is_ValueError (e : exn) : bool :=
  match e with ValueError _ => true | _ => false end.

(** [str(e)] *)
Definition str_of_exn (e : exn) : string :=
  match e with
  | ValueError m | OverflowError m | FileNotFoundError m | OtherException m => m
  end.

Inductive result (A : Type) : Type :=
| Ok (a : A)
| Raise (e : exn).
Arguments Ok {A} a.
Arguments Raise {A} e.

Definition bind {A B} (r : result A) (k : A -> result B) : result B :=
  match r with
  | Ok a => k a
  | Raise e => Raise e
  end.

(** A [for] loop whose body may raise: rows are visited in order and the
    first exception ends the loop. *)
Fixpoint for_each {A B} (body : A -> result B) (rows : list A) : result (list B) :=
  match rows with
  | [] => Ok []
  | row :: rest =>
      bind (body row) (fun b =>
      bind (for_each body rest) (fun bs => Ok (b :: bs)))
  end.

(** *** Strings *)

(** [c.lower()] on one ASCII character; bytes outside [A-Z] are kept. *)
Definition lower_ascii (c : ascii) : ascii :=
  let n := N_of_ascii c in
  if ((65 <=? n) && (n <=? 90))%N then ascii_of_N (n + 32) else c.

(** [s.lower()] *)
Fixpoint lower (s : string) : string :=
  match s with
  | EmptyString => EmptyString
  | String c rest => String (lower_ascii c) (lower rest)
  end.

(** [needle in hay] for strings: substring test. *)
Fixpoint contains (needle hay : string) : bool :=
  String.prefix needle hay ||
  match hay with
  | EmptyString => false
  | String _ rest => contains needle rest
  end.

(** [sep.join(parts)] *)
Fixpoint join (sep : string) (parts : list string) : string :=
  match parts with
  | [] => ""
  | [p] => p
  | p :: rest => p +:+ sep +:+ join sep rest
  end.

(** [any(word in text for word in words)] *)
Definition any_in (words : list string) (text : string) : bool :=
  existsb (fun word => contains word text) words.

(** *** Floats *)

(** [a > b] and [a < b] on floats (both false when a NaN is involved). *)
Definition gt (a b : float) : bool := PrimFloat.ltb b a.
Definition lt (a b : float) : bool := PrimFloat.ltb a b.

(** [pd.notna(x)] on a float. *)
Definition notna (x : float) : bool := negb (PrimFloat.is_nan x).

(** [int(x)] on a float: truncation toward zero; NaN and the infinities
    raise.  A finite float is [(-1)^s * m * 2^e]; shifting [m] by [e]
    (to the right when [e] is negative) drops the fractional bits. *)
Definition int (x : float) : result Z :=
  match Prim2SF x with
  | S754_zero _ => Ok 0
  | S754_infinity _ =>
      Raise (OverflowError "cannot convert float infinity to integer")
  | S754_nan => Raise (ValueError "cannot convert float NaN to integer")
  | S754_finite s m e =>
      let magnitude := Z.shiftl (Z.pos m) e in
      Ok (if s then - magnitude else magnitude)
  end.

(** [float(n)] for a small non-negative integer (a row count). *)
Definition float_of_count (n : nat) : float :=
  PrimFloat.of_uint63 (Uint63.of_Z (Z.of_nat n)).

(** *** [list.sort(key=..., reverse=True)]

    Python's sort is stable, and [reverse=True] keeps it stable: elements
    come out by decreasing key, and elements with equal keys stay in their
    original relative order.  [insert_desc] puts [x] in front of the first
    element whose key does not exceed the key of [x]. *)
Section Sort.
Context {A : Type} (key : A -> Z).

Fixpoint insert_desc (x : A) (l : list A) : list A :=
  match l with
  | [] => [x]
  | y :: ys => if key x <? key y then y :: insert_desc x ys else x :: y :: ys
  end.

Definition sort_reverse (l : list A) : list A :=
  foldr insert_desc [] l.

End Sort.

End Py.

Import Py.

#[global] Instance result_bind : MBind result := fun A B k r => bind r k.
#[global] Instance result_ret : MRet result := fun A a => Ok a.

(* ===================================================================== *)
(** ** app/models/schemas.py *)
(* ===================================================================== *)

Record ExistingRoutineRecommendation : Type := {
  routine_id : string;
  er_reasoning : string;
  er_priority : Z
}.

Record Exercise : Type := {
  ex_name : string;
  sets : Z;
  reps : Z;
  notes : option string
}.

Record NewRoutineRecommendation : Type := {
  nr_name : string;
  description : string;
  estimated_duration : Z;
  exercises : list Exercise;
  nr_reasoning : string;
  nr_priority : Z
}.

Record RecommendationResponse : Type := {
  existing_routines : list ExistingRoutineRecommendation;
  new_routines : list NewRoutineRecommendation
}.

(** The [Field] constraints of the schemas ([ge], [le], [min_items],
    [max_items]).  pydantic raises when a constructor is given a value that
    breaks them; the records above are built without that check, and the
    constraints are shown to hold for every value the engine builds. *)
Definition existing_fields_ok (r : ExistingRoutineRecommendation) : bool :=
  (1 <=? er_priority r) && (er_priority r <=? 10).

Definition exercise_fields_ok (e : Exercise) : bool :=
  (1 <=? sets e) && (1 <=? reps e).

Definition new_fields_ok (r : NewRoutineRecommendation) : bool :=
  (1 <=? estimated_duration r)
  && (4 <=? length (exercises r))%nat && (length (exercises r) <=? 8)%nat
  && forallb exercise_fields_ok (exercises r)
  && (1 <=? nr_priority r) && (nr_priority r <=? 10).

(* ===================================================================== *)
(** ** app/services/data_preparation.py *)
(* ===================================================================== *)

(** One row of the workout-history query: the columns that
    [prepare_features_for_ml] reads.  A SQL NULL (NaN in the DataFrame) is
    [None]. *)
Record WorkoutRow : Type := {
  completed : option bool;
  final_duration : option float;
  w_completion_rate : option float;
  w_avg_time_delta : option float;
  w_total_workouts : option Z;
  w_completed_workouts : option Z
}.

(** One row of the routine-library query: [id] and [name] as [str(...)]
    renders them. *)
Record RoutineRow : Type := {
  id : string;
  name : string
}.

(** The data store behind [get_db()]: what the two queries answer for a
    user id, or the exception the session raises. *)
Record Database : Type := {
  workout_rows : string -> result (list WorkoutRow);
  routine_rows : string -> result (list RoutineRow)
}.

(** The feature dictionary.  [prepare_features_for_ml] is its only
    producer and always sets these seven keys with these types, so
    [features.get(k, default)] is the field [k]. *)
Record Features : Type := {
  completion_rate : float;
  avg_time_delta : float;
  total_workouts : Z;
  completed_workouts : Z;
  has_cardio : bool;
  has_strength : bool;
  avg_duration : float
}.

(** [rows = result.fetchall()]; [pd.DataFrame()] when there are no rows,
    [pd.DataFrame(rows)] otherwise: in both cases the list of rows. *)
Definition fetch_user_workout_data (db : Database) (user_id : string)
  : result (list WorkoutRow) :=
  rows ← workout_rows db user_id;
  match rows with
  | [] => Ok []
  | _ => Ok rows
  end.

Definition fetch_user_routines (db : Database) (user_id : string)
  : result (list RoutineRow) :=
  rows ← routine_rows db user_id;
  match rows with
  | [] => Ok []
  | _ => Ok rows
  end.

(** [float(v) if pd.notna(v) else 0.0] *)
Definition float_or_zero (v : option float) : float :=
  match v with
  | Some x => if notna x then x else 0.0%float
  | None => 0.0%float
  end.

(** [int(v) if pd.notna(v) else 0] *)
Definition int_or_zero (v : option Z) : Z :=
  match v with
  | Some n => n
  | None => 0
  end.

(** [Series.mean()]: NaN entries are skipped; the mean of no value is NaN. *)
Definition series_mean (values : list (option float)) : float :=
  let present := omap (fun v => match v with
                                | Some x => if notna x then Some x else None
                                | None => None
                                end) values in
  (fold_left PrimFloat.add present 0.0 / float_of_count (length present))%float.

Definition cardio_words : list string := ["cardio"; "hiit"; "running"; "endurance"].
Definition strength_words : list string := ["strength"; "weight"; "lifting"; "power"].

Definition prepare_features_for_ml
    (workout_df : list WorkoutRow) (routines_df : list RoutineRow) : Features :=
  match workout_df with
  | [] =>
      {| completion_rate := 0.0; avg_time_delta := 0.0;
         total_workouts := 0; completed_workouts := 0;
         has_cardio := false; has_strength := false;
         avg_duration := 0.0 |}
  | row0 :: _ =>
      let routine_names := join " " (map (fun r => lower (name r)) routines_df) in
      let completed_workouts_df :=
        filter (fun w => completed w = Some true) workout_df in
      {| completion_rate := float_or_zero (w_completion_rate row0);
         avg_time_delta := float_or_zero (w_avg_time_delta row0);
         total_workouts := int_or_zero (w_total_workouts row0);
         completed_workouts := int_or_zero (w_completed_workouts row0);
         has_cardio :=
           match routines_df with
           | [] => false
           | _ => any_in cardio_words routine_names
           end;
         has_strength :=
           match routines_df with
           | [] => false
           | _ => any_in strength_words routine_names
           end;
         avg_duration :=
           match completed_workouts_df with
           | [] => 0.0%float
           | _ =>
               let avg_dur := series_mean (map final_duration completed_workouts_df) in
               if notna avg_dur then (avg_dur / 60)%float else 0.0%float
           end |}
  end.

(** The columns of a workout-history row that
    [create_user_routine_interactions] reads.  Numeric columns are float64
    (NULL is [None]); an integer column agrees with it below 2^53. *)
Record InteractionRow : Type := {
  i_routine_id : string;
  i_completed : option bool;
  i_final_duration : option float;
  i_estimated_duration : option float
}.

(** [pd.notna(row.get(column))] *)
Definition present (v : option float) : bool :=
  match v with
  | Some x => notna x
  | None => false
  end.

(** The float in a cell; a missing cell reads as NaN. *)
Definition cell (v : option float) : float := default PrimFloat.nan v.

(** The rating given to one row by the loop body of
    [create_user_routine_interactions]. *)
Definition interaction_rating (row : InteractionRow) : float :=
  let rating := 0.0%float in
  if default false (i_completed row) then
    let rating := 5.0%float in
    if present (i_final_duration row) && present (i_estimated_duration row) then
      let time_delta :=
        (cell (i_final_duration row) - cell (i_estimated_duration row) * 60)%float in
      if lt time_delta (-60) then (rating + 2.0)%float
      else if lt time_delta 0 then (rating + 1.0)%float
      else if gt time_delta 120 then (rating - 1.0)%float
      else rating
    else rating
  else rating.

(** [workout_data] is [fetch_user_workout_data] seen through the columns
    above. *)
Definition create_user_routine_interactions
    (workout_data : string -> result (list InteractionRow)) (user_id : string)
  : result (list (string * string * float)) :=
  workout_df ← workout_data user_id;
  match workout_df with
  | [] => Ok []
  | _ =>
      Ok (map (fun row => (user_id, i_routine_id row, interaction_rating row))
              workout_df)
  end.

(* ===================================================================== *)
(** ** app/models/simple_recommender.py *)
(* ===================================================================== *)

Module SimpleRecommender.

(** The fitted scikit-learn objects are opaque.  A fitted scaler maps the
    one-row frame built from the feature dictionary to a scaled row, or
    raises (for instance when the columns differ from those seen by [fit]);
    a fitted forest maps a scaled row to its class probabilities,
    [predict_proba(X)[0]], or raises. *)
Record StandardScaler : Type := {
  transform : Features -> result (list float)
}.

Record RandomForestClassifier : Type := {
  predict_proba : list float -> result (list float)
}.

Record t : Type := {
  model : option RandomForestClassifier;
  scaler : StandardScaler;
  is_trained : bool
}.

(** What [joblib.dump] stores: the dictionary with keys ['model'],
    ['scaler'] and, except in older artifacts, ['is_trained']. *)
Record Artifact : Type := {
  a_model : option RandomForestClassifier;
  a_scaler : StandardScaler;
  a_is_trained : option bool
}.

(** The part of the file system that [save] and [load] touch: which paths
    are directories and which hold an artifact.  A path is known by its
    spelling; every statement below looks a file up under the spelling it
    was written with. *)
Record FileSystem : Type := {
  dirs : gset string;
  files : gmap string Artifact
}.

(** [train] fits the scaler and the forest with scikit-learn and sets
    [is_trained]; what it fits is opaque here, so a trained model is any
    value of [t] with [is_trained = true].

    A scaler that has not been fitted: [transform] raises. *)
Definition unfitted_scaler : StandardScaler :=
  {| transform := fun _ =>
       Raise (OtherException "This StandardScaler instance is not fitted yet.") |}.

(** [__init__] *)
Definition init : t :=
  {| model := None; scaler := unfitted_scaler; is_trained := false |}.

Definition predict (self : t) (user_features : Features) : result (list float) :=
  match is_trained self, model self with
  | true, Some forest =>
      X_scaled ← transform (scaler self) user_features;
      predict_proba forest X_scaled
  | _, _ => Ok [0.5%float; 0.5%float]
  end.

(** [os.path.dirname]: the path up to its last ['/'], without trailing
    slashes unless it consists of slashes only. *)
Definition is_slash (c : ascii) : bool := Ascii.eqb c "/"%char.

Fixpoint has_slash (p : string) : bool :=
  match p with
  | EmptyString => false
  | String c rest => is_slash c || has_slash rest
  end.

Fixpoint head_of_path (p : string) : string :=
  match p with
  | EmptyString => EmptyString
  | String c rest =>
      if has_slash rest then String c (head_of_path rest)
      else if is_slash c then String c EmptyString
      else EmptyString
  end.

Fixpoint all_slashes (p : string) : bool :=
  match p with
  | EmptyString => true
  | String c rest => is_slash c && all_slashes rest
  end.

Fixpoint rstrip_slashes (p : string) : string :=
  match p with
  | EmptyString => EmptyString
  | String c rest =>
      if all_slashes (String c rest) then EmptyString
      else String c (rstrip_slashes rest)
  end.

Definition dirname (p : string) : string :=
  let head := head_of_path p in
  if all_slashes head then head else rstrip_slashes head.

(** [p] ends with a slash. *)
Fixpoint ends_with_slash (p : string) : bool :=
  match p with
  | EmptyString => false
  | String c rest =>
      match rest with
      | EmptyString => is_slash c
      | String _ _ => ends_with_slash rest
      end
  end.

(** The directories on the way to [d], outermost first, and [d] itself:
    the prefixes of [d] that end where a component ends.  [seen] is the
    part of the path already read. *)
Fixpoint path_prefixes_from (seen : string) (p : string) : list string :=
  match p with
  | EmptyString =>
      if String.eqb seen "" || ends_with_slash seen then [] else [seen]
  | String c rest =>
      (if is_slash c && negb (String.eqb seen "") && negb (ends_with_slash seen)
       then [seen] else [])
      ++ path_prefixes_from (seen +:+ String c EmptyString) rest
  end.

Definition path_prefixes (d : string) : list string := path_prefixes_from "" d.

(** [p] is a regular file. *)
Definition is_file (fs : FileSystem) (p : string) : bool :=
  bool_decide (is_Some (files fs !! p)).

(** [os.makedirs(d, exist_ok=True)]: creates [d] and the directories on
    the way to it; raises when [d] is a regular file (FileExistsError) or
    when a regular file lies on the way (NotADirectoryError). *)
Definition makedirs (d : string) (fs : FileSystem) : result unit * FileSystem :=
  if is_file fs d then
    (Raise (OtherException ("[Errno 17] File exists: '" +:+ d +:+ "'")), fs)
  else if existsb (is_file fs) (path_prefixes d) then
    (Raise (OtherException ("[Errno 20] Not a directory: '" +:+ d +:+ "'")), fs)
  else
    (Ok tt, {| dirs := list_to_set (path_prefixes d) ∪ dirs fs; files := files fs |}).

(** [joblib.dump(obj, filepath)] opens [filepath] for writing: it raises
    for the empty path, for a directory, when a regular file lies on the
    way to it, and when its directory does not exist; otherwise the file
    holds [obj] afterwards. *)
Definition dump (obj : Artifact) (filepath : string) (fs : FileSystem)
  : result unit * FileSystem :=
  if String.eqb filepath "" then
    (Raise (FileNotFoundError "[Errno 2] No such file or directory: ''"), fs)
  else if ends_with_slash filepath || bool_decide (filepath ∈ dirs fs) then
    (Raise (OtherException ("[Errno 21] Is a directory: '" +:+ filepath +:+ "'")), fs)
  else if existsb (is_file fs) (path_prefixes (dirname filepath)) then
    (Raise (OtherException ("[Errno 20] Not a directory: '" +:+ filepath +:+ "'")), fs)
  else if negb (all_slashes (dirname filepath))
          && negb (bool_decide (dirname filepath ∈ dirs fs)) then
    (Raise (FileNotFoundError
              ("[Errno 2] No such file or directory: '" +:+ filepath +:+ "'")), fs)
  else
    (Ok tt, {| dirs := dirs fs; files := <[ filepath := obj ]> (files fs) |}).

(** [save]: a computation on the pair of the model and the file system.
    An exception of [os.makedirs] or [joblib.dump] ends it. *)
Definition save (filepath : string) (st : t * FileSystem)
  : result unit * (t * FileSystem) :=
  let (self, fs) := st in
  if negb (is_trained self) then
    (Raise (ValueError "Model must be trained before saving"), st)
  else
    let d := if String.eqb (dirname filepath) "" then "." else dirname filepath in
    match makedirs d fs with
    | (Raise e, fs) => (Raise e, (self, fs))
    | (Ok _, fs) =>
        match dump {| a_model := model self; a_scaler := scaler self;
                      a_is_trained := Some (is_trained self) |} filepath fs with
        | (Raise e, fs) => (Raise e, (self, fs))
        | (Ok _, fs) => (Ok tt, (self, fs))
        end
    end.

(** [load]: [data.get('is_trained', True)] defaults to trained.  A path
    that exists without being an artifact file is a directory, which
    [joblib.load] cannot open. *)
Definition load (filepath : string) (st : t * FileSystem)
  : result unit * (t * FileSystem) :=
  let (self, fs) := st in
  match files fs !! filepath with
  | None =>
      if bool_decide (filepath ∈ dirs fs) then
        (Raise (OtherException ("[Errno 21] Is a directory: " +:+ filepath)), st)
      else
        (Raise (FileNotFoundError ("Model file not found: " +:+ filepath)), st)
  | Some data =>
      (Ok tt,
       ({| model := a_model data; scaler := a_scaler data;
           is_trained := default true (a_is_trained data) |}, fs))
  end.

(** The training frame: the columns that [train] reads.
    ['routine_type_encoded'] is a column of the whole frame or of none;
    [t_routine_type_encoded] is read only when the column is there. *)
Record TrainingRow : Type := {
  t_user_id : string;
  t_routine_id : string;
  t_completion_rate : float;
  t_avg_time_delta : float;
  t_routine_type_encoded : float;
  t_user_preference : Z
}.

Record TrainingData : Type := {
  has_routine_type_encoded : bool;
  t_rows : list TrainingRow
}.

(** scikit-learn's fitting routines.  [fit_transform] refits the scaler it
    is given (whatever it returns or raises, the scaler object may have
    changed); [new_forest] is [RandomForestClassifier(n_estimators=100,
    random_state=42, max_depth=10)] before fitting, and [fit] fits it in
    place. *)
Record Sklearn : Type := {
  fit_transform :
    StandardScaler -> list (list float) -> StandardScaler * result (list (list float));
  new_forest : RandomForestClassifier;
  fit :
    RandomForestClassifier -> list (list float) -> list Z
    -> RandomForestClassifier * result unit
}.

(** [workout_data[features]]: one row of the design matrix. *)
Definition feature_row (with_type : bool) (row : TrainingRow) : list float :=
  [t_completion_rate row; t_avg_time_delta row]
  ++ (if with_type then [t_routine_type_encoded row] else []).

(** [train]: a computation on the model.  The assignments happen in the
    order of the source, so an exception leaves the model as far as it
    got. *)
Definition train (sk : Sklearn) (workout_data : TrainingData) (self : t)
  : result unit * t :=
  match t_rows workout_data with
  | [] => (Ok tt, self)
  | _ =>
      let X := map (feature_row (has_routine_type_encoded workout_data))
                   (t_rows workout_data) in
      let y := map t_user_preference (t_rows workout_data) in
      let (scaler', X_scaled) := fit_transform sk (scaler self) X in
      match X_scaled with
      | Raise e =>
          (Raise e,
           {| model := model self; scaler := scaler'; is_trained := is_trained self |})
      | Ok X_scaled =>
          let (forest, fitted) := fit sk (new_forest sk) X_scaled y in
          match fitted with
          | Raise e =>
              (Raise e,
               {| model := Some forest; scaler := scaler';
                  is_trained := is_trained self |})
          | Ok _ =>
              (Ok tt,
               {| model := Some forest; scaler := scaler'; is_trained := true |})
          end
      end
  end.

End SimpleRecommender.

(* ===================================================================== *)
(** ** app/services/recommendation_service.py *)
(* ===================================================================== *)

Module RecommendationService.

(** The service object: the model it loaded at start-up. *)
Record t : Type := {
  model : SimpleRecommender.t
}.

Definition mk_exercise (n : string) (s r : Z) (note : string) : Exercise :=
  {| ex_name := n; sets := s; reps := r; notes := Some note |}.

(** The template catalog.  Each [_create_*] method takes [features] and
    does not look at it; [_generate_default_recommendations] passes [{}]. *)
Definition _create_quick_workout_routine {D : Type} (features : D)
  : NewRoutineRecommendation :=
  {| nr_name := "Quick 20-Minute HIIT";
     description := "A fast-paced workout designed to improve time efficiency and build consistency.";
     estimated_duration := 20;
     exercises :=
       [ mk_exercise "Burpees" 3 10 "Keep your back straight";
         mk_exercise "Mountain Climbers" 3 20 "Maintain steady pace";
         mk_exercise "Jump Squats" 3 15 "Land softly";
         mk_exercise "Plank Hold" 3 30 "Hold for 30 seconds" ];
     nr_reasoning := "This shorter routine will help you build consistency and improve completion rates.";
     nr_priority := 9 |}.

Definition _create_time_efficient_routine {D : Type} (features : D)
  : NewRoutineRecommendation :=
  {| nr_name := "Time-Efficient Power Session";
     description := "A focused workout designed to maximize results in minimal time.";
     estimated_duration := 25;
     exercises :=
       [ mk_exercise "Thrusters" 4 8 "Full range of motion";
         mk_exercise "Kettlebell Swings" 3 15 "Use proper form";
         mk_exercise "Box Jumps" 3 10 "Step down safely";
         mk_exercise "Battle Ropes" 3 30 "30 seconds on, 30 seconds rest" ];
     nr_reasoning := "This routine focuses on efficiency and will help you improve time management.";
     nr_priority := 8 |}.

Definition _create_cardio_routine {D : Type} (features : D)
  : NewRoutineRecommendation :=
  {| nr_name := "Cardio Endurance Builder";
     description := "A cardio-focused routine to improve endurance and cardiovascular fitness.";
     estimated_duration := 30;
     exercises :=
       [ mk_exercise "Running" 1 1 "20 minutes steady pace";
         mk_exercise "Jump Rope" 3 100 "Maintain rhythm";
         mk_exercise "High Knees" 3 30 "Lift knees to hip height";
         mk_exercise "Burpees" 3 10 "Full movement, maintain pace" ];
     nr_reasoning := "This routine targets cardio endurance and helps build cardiovascular fitness.";
     nr_priority := 8 |}.

Definition _create_strength_routine {D : Type} (features : D)
  : NewRoutineRecommendation :=
  {| nr_name := "Strength Foundation Builder";
     description := "A strength-focused routine to build muscle and power.";
     estimated_duration := 35;
     exercises :=
       [ mk_exercise "Deadlifts" 4 6 "Keep back straight";
         mk_exercise "Bench Press" 4 8 "Control the weight";
         mk_exercise "Squats" 4 10 "Full depth";
         mk_exercise "Pull-ups" 3 8 "Full range of motion" ];
     nr_reasoning := "This routine focuses on building strength and power.";
     nr_priority := 8 |}.

Definition _create_balanced_routine {D : Type} (features : D)
  : NewRoutineRecommendation :=
  {| nr_name := "Full Body Blast";
     description := "A balanced full-body workout targeting all major muscle groups.";
     estimated_duration := 30;
     exercises :=
       [ mk_exercise "Burpees" 3 10 "Full movement";
         mk_exercise "Push-ups" 3 15 "Keep core engaged";
         mk_exercise "Squats" 3 20 "Full depth";
         mk_exercise "Plank" 3 45 "Hold for 45 seconds";
         mk_exercise "Mountain Climbers" 3 20 "Steady pace" ];
     nr_reasoning := "This balanced routine provides a complete full-body workout.";
     nr_priority := 7 |}.

(** The empty dictionary [{}]. *)
Definition empty_dict : unit := tt.

Definition _generate_default_recommendations : RecommendationResponse :=
  {| existing_routines := [];
     new_routines := [ _create_balanced_routine empty_dict ] |}.

(** [score] starts at [5.0]; each [if] that holds does [score += bonus]. *)
Definition _calculate_rule_based_score (row : RoutineRow) (features : Features) : float :=
  let score := 5.0%float in
  let score :=
    if gt (completion_rate features) 0.7 then (score + 1.0)%float else score in
  let score :=
    if lt (avg_time_delta features) (-60) then (score + 1.0)%float else score in
  let routine_name_lower := lower (name row) in
  let score :=
    if has_cardio features && contains "cardio" routine_name_lower
    then (score + 0.5)%float else score in
  let score :=
    if has_strength features && any_in ["strength"; "weight"] routine_name_lower
    then (score + 0.5)%float else score in
  score.

(** [reasons] is the list built by the successive [append]s. *)
Definition _generate_reasoning_for_existing_routine
    (routine_row : RoutineRow) (features : Features) (use_ml : bool) : string :=
  let reasons :=
    if use_ml then
      ["ML model predicts you'll like this routine based on your workout patterns"]
    else
      let routine_name := lower (name routine_row) in
      ((if gt (completion_rate features) 0.7
        then ["You have a high completion rate"] else [])
       ++ (if lt (avg_time_delta features) (-60)
           then ["you finish workouts efficiently"] else [])
       ++ (if contains "cardio" routine_name && has_cardio features
           then ["matches your cardio preferences"] else [])
       ++ (if any_in ["strength"; "weight"] routine_name && has_strength features
           then ["aligns with your strength training"] else []))%list in
  let reasons :=
    match reasons with
    | [] => ["this routine matches your current fitness level"]
    | _ => reasons
    end in
  "Recommended because " +:+ join ", " reasons +:+ ".".

(** [use_ml]: the model is trained and holds a fitted classifier. *)
Definition use_ml (self : t) : bool :=
  SimpleRecommender.is_trained (model self)
  && bool_decide (is_Some (SimpleRecommender.model (model self))).

(** The [score] computed in the loop body: the scaled probability of the
    "liked" class, or the rule-based score when the model is not used or
    when anything in the [try] block raises. *)
Definition candidate_score (self : t) (row : RoutineRow) (features : Features) : float :=
  if use_ml self then
    match SimpleRecommender.predict (model self) features with
    | Ok prediction =>
        let ml_score :=
          match prediction with
          | _ :: p_liked :: _ => p_liked
          | _ => 0.5%float
          end in
        (ml_score * 10)%float
    | Raise e => _calculate_rule_based_score row features
    end
  else _calculate_rule_based_score row features.

(** [min(10, max(1, int(score)))] *)
Definition normalize_priority (score : float) : result Z :=
  n ← Py.int score;
  Ok (Z.min 10 (Z.max 1 n)).

(** The body of the [for idx, row in routines_df.iterrows()] loop. *)
Definition recommend_row (self : t) (features : Features) (row : RoutineRow)
  : result ExistingRoutineRecommendation :=
  let score := candidate_score self row features in
  priority ← normalize_priority score;
  let reasoning :=
    _generate_reasoning_for_existing_routine row features (use_ml self) in
  Ok {| routine_id := id row; er_reasoning := reasoning; er_priority := priority |}.

Definition _recommend_existing_routines
    (self : t) (user_id : string) (routines_df : list RoutineRow) (features : Features)
  : result (list ExistingRoutineRecommendation) :=
  match routines_df with
  | [] => Ok []
  | _ =>
      recommendations ← for_each (recommend_row self features) routines_df;
      let recommendations := sort_reverse er_priority recommendations in
      Ok (take 5 recommendations)
  end.

Definition _generate_new_routines (self : t) (user_id : string) (features : Features)
  : list NewRoutineRecommendation :=
  let routines := [] in
  let routines :=
    if lt (completion_rate features) 0.5
    then (routines ++ [_create_quick_workout_routine features])%list else routines in
  let routines :=
    if gt (avg_time_delta features) 120
    then (routines ++ [_create_time_efficient_routine features])%list else routines in
  let routines :=
    if negb (has_cardio features)
    then (routines ++ [_create_cardio_routine features])%list else routines in
  let routines :=
    if negb (has_strength features)
    then (routines ++ [_create_strength_routine features])%list else routines in
  let routines :=
    match routines with
    | [] => (routines ++ [_create_balanced_routine features])%list
    | _ => routines
    end in
  take 3 routines.

Definition generate_recommendations (self : t) (db : Database) (user_id : string)
  : result RecommendationResponse :=
  workout_df ← fetch_user_workout_data db user_id;
  routines_df ← fetch_user_routines db user_id;
  if bool_decide (workout_df = []) && bool_decide (routines_df = []) then
    Ok _generate_default_recommendations
  else
    let features := prepare_features_for_ml workout_df routines_df in
    existing_routines ← _recommend_existing_routines self user_id routines_df features;
    let new_routines := _generate_new_routines self user_id features in
    Ok {| existing_routines := existing_routines; new_routines := new_routines |}.

(** [os.path.exists(path)] *)
Definition path_exists (path : string) (fs : SimpleRecommender.FileSystem) : bool :=
  bool_decide (path ∈ SimpleRecommender.dirs fs)
  || bool_decide (is_Some (SimpleRecommender.files fs !! path)).

(** [__init__]: [model_path] is the value of [ML_MODEL_PATH].  Whatever
    [load] raises is caught and logged; the model keeps the state in which
    [load] left it. *)
Definition init (model_path : string) (fs : SimpleRecommender.FileSystem) : t :=
  let model := SimpleRecommender.init in
  if path_exists model_path fs then
    let '(_, (model, _)) := SimpleRecommender.load model_path (model, fs) in
    {| model := model |}
  else {| model := model |}.

End RecommendationService.

(* ===================================================================== *)
(** ** app/main.py: the POST /recommendations handler *)
(* ===================================================================== *)

Module Main.

Record RecommendationRequest : Type := {
  user_id : string
}.

(** What the handler answers: the response model (HTTP 200) or an
    [HTTPException] with its status code and detail. *)
Inductive HttpResult : Type :=
| Response (body : RecommendationResponse)
| HTTPException (status_code : Z) (detail : string).

Definition HTTP_400_BAD_REQUEST : Z := 400.
Definition HTTP_500_INTERNAL_SERVER_ERROR : Z := 500.
Definition HTTP_503_SERVICE_UNAVAILABLE : Z := 503.

Definition get_recommendations
    (recommendation_service : option RecommendationService.t)
    (db : Database) (request : RecommendationRequest) : HttpResult :=
  match recommendation_service with
  | None =>
      HTTPException HTTP_503_SERVICE_UNAVAILABLE "Recommendation service not initialized"
  | Some service =>
      match RecommendationService.generate_recommendations service db (user_id request) with
      | Ok recommendations => Response recommendations
      | Raise (ValueError msg) => HTTPException HTTP_400_BAD_REQUEST msg
      | Raise e =>
          HTTPException HTTP_500_INTERNAL_SERVER_ERROR
            ("Failed to generate recommendations: " +:+ str_of_exn e)
      end
  end.

(** [check_database_connection]: [select_1] is the outcome of running
    [SELECT 1] in a session.  [ConnectionError] is not a [ValueError]. *)
Definition check_database_connection (select_1 : result unit) : result bool :=
  match select_1 with
  | Ok _ => Ok true
  | Raise e => Raise (OtherException ("Cannot connect to database: " +:+ str_of_exn e))
  end.

(** The dictionary returned by [/health]; an absent key is [None]. *)
Record HealthResponse : Type := {
  h_status : string;
  h_service : string;
  h_version : option string;
  h_database : option string;
  h_error : option string
}.

Definition health_check (select_1 : result unit) : HealthResponse :=
  match check_database_connection select_1 with
  | Ok db_status =>
      {| h_status := "healthy"; h_service := "ml-recommendations";
         h_version := Some "1.0.0";
         h_database := Some (if db_status then "connected" else "disconnected");
         h_error := None |}
  | Raise e =>
      {| h_status := "unhealthy"; h_service := "ml-recommendations";
         h_version := None; h_database := None;
         h_error := Some (str_of_exn e) |}
  end.

End Main.

(* ===================================================================== *)
(** ** scripts/train_model.py *)
(* ===================================================================== *)

Module TrainModel.

(** One row of the training query.  Numeric columns are float64 (NULL is
    [None]); an integer column agrees with it below 2^53. *)
Record RawRow : Type := {
  userId : string;
  routineId : string;
  r_completed : option bool;
  finalDuration : option float;
  estimatedDuration : option float;
  r_completion_rate : option float;
  r_avg_time_delta : option float
}.

(** [df['finalDuration'] - (df['estimatedDuration'] * 60)] *)
Definition time_delta (row : RawRow) : float :=
  (cell (finalDuration row) - cell (estimatedDuration row) * 60)%float.

(** [groupby(['userId', 'routineId']).size()] merged back on the two keys:
    the number of rows with the user and routine of [row]. *)
Definition routine_frequency (df : list RawRow) (row : RawRow) : nat :=
  length (filter (fun other => userId other = userId row
                               /\ routineId other = routineId row) df).

Definition user_preference (df : list RawRow) (row : RawRow) : Z :=
  if bool_decide (r_completed row = Some true)
     && lt (time_delta row) 120
     && (2 <=? routine_frequency df row)%nat
  then 1 else 0.

(** The selected columns of one row, or nothing when [dropna] removes it. *)
Definition training_row (df : list RawRow) (row : RawRow)
  : option SimpleRecommender.TrainingRow :=
  if present (r_completion_rate row) && present (r_avg_time_delta row) then
    Some {| SimpleRecommender.t_user_id := userId row;
            SimpleRecommender.t_routine_id := routineId row;
            SimpleRecommender.t_completion_rate := cell (r_completion_rate row);
            SimpleRecommender.t_avg_time_delta := cell (r_avg_time_delta row);
            SimpleRecommender.t_routine_type_encoded := 0.0;
            SimpleRecommender.t_user_preference := user_preference df row |}
  else None.

Definition prepare_training_data (df : list RawRow) : SimpleRecommender.TrainingData :=
  {| SimpleRecommender.has_routine_type_encoded := false;
     SimpleRecommender.t_rows := omap (training_row df) df |}.

(** [training_df['user_preference'].nunique()] *)
Definition nunique (training_df : SimpleRecommender.TrainingData) : nat :=
  length (remove_dups
            (map SimpleRecommender.t_user_preference
                 (SimpleRecommender.t_rows training_df))).

(** [train_model]: a computation on the file system; [None] is the
    [return None] of the two guards. *)
Definition train_model
    (sk : SimpleRecommender.Sklearn) (training_df : SimpleRecommender.TrainingData)
    (model_path : string) (fs : SimpleRecommender.FileSystem)
  : result (option SimpleRecommender.t) * SimpleRecommender.FileSystem :=
  match SimpleRecommender.t_rows training_df with
  | [] => (Ok None, fs)
  | _ =>
      if (nunique training_df <? 2)%nat then (Ok None, fs)
      else
        let model := SimpleRecommender.init in
        match SimpleRecommender.train sk training_df model with
        | (Raise e, _) => (Raise e, fs)
        | (Ok _, model) =>
            let d := if String.eqb (SimpleRecommender.dirname model_path) ""
                     then "." else SimpleRecommender.dirname model_path in
            match SimpleRecommender.makedirs d fs with
            | (Raise e, fs) => (Raise e, fs)
            | (Ok _, fs) =>
                match SimpleRecommender.save model_path (model, fs) with
                | (Raise e, (_, fs)) => (Raise e, fs)
                | (Ok _, (model, fs)) => (Ok (Some model), fs)
                end
            end
        end
  end.

End TrainModel.

(* ===================================================================== *)
(** ** Statements taken from the specification

    Definitions that follow the wording of the specification, to be
    compared with the code above. *)
(* ===================================================================== *)

Module Spec.

(** "starts at base 5.0 and accumulates bonuses": the bonus of a condition
    is its amount when the condition holds and nothing otherwise. *)
Definition bonus (condition : bool) (amount : float) : float :=
  if condition then amount else 0.0%float.

Definition rule_score (row : RoutineRow) (features : Features) : float :=
  (5.0
   + bonus (gt (completion_rate features) 0.7) 1.0
   + bonus (lt (avg_time_delta features) (-60)) 1.0
   + bonus (has_cardio features && contains "cardio" (lower (name row))) 0.5
   + bonus (has_strength features
            && (contains "strength" (lower (name row))
                || contains "weight" (lower (name row)))) 0.5)%float.

(** "[z] is [x] truncated toward zero": [|z| <= |x| < |z| + 1] and [z] has
    the sign of [x].  For [x = (-1)^s * m * 2^e] both sides are scaled by
    [2^k], [k = max 0 (-e)], so that the comparison is between integers. *)
Definition truncated (x : float) (z : Z) : Prop :=
  match Prim2SF x with
  | S754_zero _ => z = 0
  | S754_finite s m e =>
      let k := Z.max 0 (- e) in
      (if s then z <= 0 else 0 <= z)
      /\ Z.abs z * 2 ^ k <= Z.pos m * 2 ^ (e + k) < (Z.abs z + 1) * 2 ^ k
  | _ => False
  end.

Definition clamp (lo hi n : Z) : Z :=
  if n <? lo then lo else if hi <? n then hi else n.



(** "matches your current fitness level", as the reasoning sentence. *)
Definition generic_reasoning : string :=
  "Recommended because this routine matches your current fitness level.".

Definition model_reasoning : string :=
  "Recommended because ML model predicts you'll like this routine based on your workout patterns.".

(** [a] may stand before [b] in a list sorted by priority, descending. *)
Definition priority_ge (a b : ExistingRoutineRecommendation) : Prop :=
  er_priority b <= er_priority a.

End Spec.

(* ===================================================================== *)
(** ** Auxiliary definitions *)
(* ===================================================================== *)

(** [c] occurs in [w]. *)
Fixpoint occurs (c : ascii) (w : string) : bool :=
  match w with
  | EmptyString => false
  | String x rest => Ascii.eqb x c || occurs c rest
  end.

(** The score on the model path when [predict] returns: it does not
    mention the routine. *)
Definition model_score (prediction : list float) : float :=
  (match prediction with
   | _ :: p_liked :: _ => p_liked
   | _ => 0.5
   end * 10)%float.

(** [row] earns both keyword bonuses of the rule-based score. *)
Definition both_keywords (features : Features) (row : RoutineRow) : bool :=
  (has_cardio features && contains "cardio" (lower (name row)))
  && (has_strength features && any_in ["strength"; "weight"] (lower (name row))).

(** The priority that the rules give to a routine without both keyword
    bonuses, and the recommendation that the rule path builds for [row]. *)
Definition rule_base_priority (features : Features) : Z :=
  5 + Z.b2z (gt (completion_rate features) 0.7)
    + Z.b2z (lt (avg_time_delta features) (-60)).

Definition rule_recommendation (features : Features) (row : RoutineRow)
  : ExistingRoutineRecommendation :=
  {| routine_id := id row;
     er_reasoning :=
       RecommendationService._generate_reasoning_for_existing_routine row features false;
     er_priority := rule_base_priority features + Z.b2z (both_keywords features row) |}.

(** Membership of a template in an explicit list of templates, against a
    closed condition. *)
Ltac refute_member H :=
  rewrite ?elem_of_cons, ?elem_of_nil in H;
  repeat (destruct H as [H|H]; [discriminate H|]);
  first [discriminate H | contradiction].

Ltac prove_member :=
  repeat first [apply list_elem_of_here | apply list_elem_of_further].

Ltac settle_member_iff :=
  let H := fresh "H" in
  split; intros H;
  [ first [ solve [refute_member H]
          | solve [repeat split; try reflexivity;
                   try (intros (? & ? & ?); discriminate)] ]
  | first [ solve [prove_member]
          | discriminate H
          | solve [destruct H as [? H];
                   first [discriminate
                         | exfalso; apply H; repeat split; reflexivity]] ] ].

(* ===================================================================== *)
(** ** Sample data *)
(* ===================================================================== *)

(** A service whose model was never trained. *)
Definition untrained_service : RecommendationService.t :=
  {| RecommendationService.model := SimpleRecommender.init |}.

(** A fitted model: the scaler was fitted on the two training columns and
    rejects the seven-column frame built from the feature dictionary. *)
Definition trained_model : SimpleRecommender.t :=
  {| SimpleRecommender.model :=
       Some {| SimpleRecommender.predict_proba := fun _ => Ok [0.25%float; 0.75%float] |};
     SimpleRecommender.scaler :=
       {| SimpleRecommender.transform := fun _ =>
            Raise (ValueError "The feature names should match those that were passed during fit.") |};
     SimpleRecommender.is_trained := true |}.

Definition trained_service : RecommendationService.t :=
  {| RecommendationService.model := trained_model |}.

Definition sample_features : Features :=
  {| completion_rate := 0.8; avg_time_delta := -90;
     total_workouts := 10; completed_workouts := 8;
     has_cardio := true; has_strength := true;
     avg_duration := 28.5 |}.


Definition sample_library : list RoutineRow :=
  [ {| id := "r1"; name := "Morning Mobility" |};
    {| id := "r2"; name := "Heavy Weight Day" |};
    {| id := "r3"; name := "Cardio and Strength Mix" |};
    {| id := "r4"; name := "Evening Stretch" |};
    {| id := "r5"; name := "CARDIO Weights Circuit" |};
    {| id := "r6"; name := "Long Run" |};
    {| id := "r7"; name := "Core Basics" |} ].

Definition sample_recommendations : list ExistingRoutineRecommendation :=
  Eval vm_compute in
    match RecommendationService._recommend_existing_routines
            untrained_service "u1" sample_library sample_features with
    | Ok recs => recs
    | Raise _ => []
    end.

(** A data store with no row for anybody, and one that holds a library
    but no workout history. *)
Definition empty_database : Database :=
  {| workout_rows := fun _ => Ok []; routine_rows := fun _ => Ok [] |}.

Definition library_only_database : Database :=
  {| workout_rows := fun _ => Ok []; routine_rows := fun _ => Ok sample_library |}.

Definition empty_fs : SimpleRecommender.FileSystem :=
  {| SimpleRecommender.dirs := ∅; SimpleRecommender.files := ∅ |}.

(** A workout history of two rows carrying the aggregates of scenario A. *)
Definition sample_history : list WorkoutRow :=
  [ {| completed := Some true; final_duration := Some 1500%float;
       w_completion_rate := Some 0.8%float; w_avg_time_delta := Some (-90)%float;
       w_total_workouts := Some 10; w_completed_workouts := Some 8 |};
    {| completed := Some false; final_duration := None;
       w_completion_rate := Some 0.8%float; w_avg_time_delta := Some (-90)%float;
       w_total_workouts := Some 10; w_completed_workouts := Some 8 |} ].

Definition sample_database : Database :=
  {| workout_rows := fun _ => Ok sample_history;
     routine_rows := fun _ => Ok sample_library |}.

(** A fitted model that works: the scaler accepts the frame and the forest
    predicts a 0.75 probability of "liked". *)
Definition working_model : SimpleRecommender.t :=
  {| SimpleRecommender.model :=
       Some {| SimpleRecommender.predict_proba := fun _ => Ok [0.25%float; 0.75%float] |};
     SimpleRecommender.scaler :=
       {| SimpleRecommender.transform := fun _ => Ok [0.5%float; (-0.5)%float] |};
     SimpleRecommender.is_trained := true |}.

Definition working_service : RecommendationService.t :=
  {| RecommendationService.model := working_model |}.

(** A fitted model whose forest answers with a NaN probability. *)
Definition nan_model : SimpleRecommender.t :=
  {| SimpleRecommender.model :=
       Some {| SimpleRecommender.predict_proba := fun _ => Ok [PrimFloat.nan; PrimFloat.nan] |};
     SimpleRecommender.scaler :=
       {| SimpleRecommender.transform := fun _ => Ok [0.5%float; (-0.5)%float] |};
     SimpleRecommender.is_trained := true |}.

Definition nan_service : RecommendationService.t :=
  {| RecommendationService.model := nan_model |}.

(** A data store whose routine query fails with a connection error. *)
Definition failing_database : Database :=
  {| workout_rows := fun _ => Ok sample_history;
     routine_rows := fun _ => Raise (OtherException "connection refused") |}.

(** A file system that already holds an artifact written by an older
    version (no ['is_trained'] key) under another path. *)
Definition legacy_fs : SimpleRecommender.FileSystem :=
  {| SimpleRecommender.dirs := {[ "old" ]};
     SimpleRecommender.files :=
       {[ "old/model.pkl" :=
            {| SimpleRecommender.a_model := SimpleRecommender.model trained_model;
               SimpleRecommender.a_scaler := SimpleRecommender.scaler trained_model;
               SimpleRecommender.a_is_trained := None |} ]} |}.

(** Fitting routines that succeed, and ones whose forest rejects the data. *)
Definition sample_sklearn : SimpleRecommender.Sklearn :=
  {| SimpleRecommender.fit_transform := fun _ X =>
       ({| SimpleRecommender.transform := fun _ => Ok [0.5%float; (-0.5)%float] |}, Ok X);
     SimpleRecommender.new_forest :=
       {| SimpleRecommender.predict_proba := fun _ =>
            Raise (OtherException "This RandomForestClassifier instance is not fitted yet.") |};
     SimpleRecommender.fit := fun _ _ _ =>
       ({| SimpleRecommender.predict_proba := fun _ => Ok [0.25%float; 0.75%float] |}, Ok tt) |}.

Definition failing_sklearn : SimpleRecommender.Sklearn :=
  {| SimpleRecommender.fit_transform := SimpleRecommender.fit_transform sample_sklearn;
     SimpleRecommender.new_forest := SimpleRecommender.new_forest sample_sklearn;
     SimpleRecommender.fit := fun forest _ _ =>
       (forest, Raise (ValueError "Input X contains NaN.")) |}.

(** Training rows: user u1 did routine r1 twice, in time, and r2 once. *)
Definition sample_raw_rows : list TrainModel.RawRow :=
  [ {| TrainModel.userId := "u1"; TrainModel.routineId := "r1";
       TrainModel.r_completed := Some true;
       TrainModel.finalDuration := Some 1740%float;
       TrainModel.estimatedDuration := Some 30%float;
       TrainModel.r_completion_rate := Some 1%float;
       TrainModel.r_avg_time_delta := Some (-40)%float |};
    {| TrainModel.userId := "u1"; TrainModel.routineId := "r1";
       TrainModel.r_completed := Some true;
       TrainModel.finalDuration := Some 1800%float;
       TrainModel.estimatedDuration := Some 30%float;
       TrainModel.r_completion_rate := Some 1%float;
       TrainModel.r_avg_time_delta := Some (-40)%float |};
    {| TrainModel.userId := "u1"; TrainModel.routineId := "r2";
       TrainModel.r_completed := Some true;
       TrainModel.finalDuration := Some 1140%float;
       TrainModel.estimatedDuration := Some 20%float;
       TrainModel.r_completion_rate := Some 1%float;
       TrainModel.r_avg_time_delta := Some (-40)%float |} ].

Definition sample_training_data : SimpleRecommender.TrainingData :=
  Eval vm_compute in TrainModel.prepare_training_data sample_raw_rows.

(** Training rows with one class only: every routine was done once. *)
Definition single_class_training_data : SimpleRecommender.TrainingData :=
  Eval vm_compute in TrainModel.prepare_training_data (tl sample_raw_rows).

(** Interaction rows: on time, a minute and a half early, five minutes
    late, not completed, completed without a recorded duration. *)
Definition sample_interaction_rows : list InteractionRow :=
  [ {| i_routine_id := "r1"; i_completed := Some true;
       i_final_duration := Some 1800%float; i_estimated_duration := Some 30%float |};
    {| i_routine_id := "r1"; i_completed := Some true;
       i_final_duration := Some 1710%float; i_estimated_duration := Some 30%float |};
    {| i_routine_id := "r2"; i_completed := Some true;
       i_final_duration := Some 1500%float; i_estimated_duration := Some 20%float |};
    {| i_routine_id := "r2"; i_completed := Some false;
       i_final_duration := None; i_estimated_duration := Some 20%float |};
    {| i_routine_id := "r3"; i_completed := Some true;
       i_final_duration := None; i_estimated_duration := Some 45%float |} ].

(** The file system after the working model was saved on the empty one. *)
Definition saved_fs : SimpleRecommender.FileSystem :=
  snd (snd (SimpleRecommender.save "models/recommendation_model.pkl"
              (working_model, empty_fs))).

(* ===================================================================== *)
(** ** Facts about the runtime model *)
(* ===================================================================== *)

Section SortFacts.
Context {A : Type} (key : A -> Z).

Lemma insert_desc_perm (x : A) (l : list A) : insert_desc key x l ≡ₚ x :: l.
Proof.
  induction l as [|y ys IH]; simpl; [done|].
  destruct (key x <? key y); [|done].
  rewrite IH. apply Permutation_swap.
Qed.

Lemma sort_reverse_perm (l : list A) : sort_reverse key l ≡ₚ l.
Proof.
  induction l as [|x xs IH]; simpl; [done|].
  rewrite insert_desc_perm. by f_equiv.
Qed.

Lemma insert_desc_sorted (x : A) (l : list A) :
  StronglySorted (fun a b => key b <= key a) l ->
  StronglySorted (fun a b => key b <= key a) (insert_desc key x l).
Proof.
  induction l as [|y ys IH]; intros Hs; simpl.
  - repeat constructor.
  - apply StronglySorted_inv in Hs as [Hys Hy].
    destruct (Z.ltb_spec (key x) (key y)) as [Hlt|Hge].
    + constructor; [by apply IH|].
      rewrite insert_desc_perm. constructor; [lia|done].
    + constructor; [by constructor|].
      constructor; [done|].
      eapply Forall_impl; [exact Hy|]. simpl. intros; lia.
Qed.

Lemma sort_reverse_sorted (l : list A) :
  StronglySorted (fun a b => key b <= key a) (sort_reverse key l).
Proof.
  induction l as [|x xs IH]; simpl; [constructor|].
  by apply insert_desc_sorted.
Qed.

(** Stability: insertion moves [x] only past elements with a strictly
    larger key, so the elements of any one key keep their order. *)
Lemma filter_insert_desc (p : Z) (x : A) (l : list A) :
  filter (fun a => key a = p) (insert_desc key x l)
  = filter (fun a => key a = p) (x :: l).
Proof.
  induction l as [|y ys IH]; simpl; [done|].
  destruct (Z.ltb_spec (key x) (key y)) as [Hlt|Hge]; [|done].
  rewrite (filter_cons _ y), IH, !filter_cons.
  repeat case_decide; try done; lia.
Qed.

Lemma filter_sort_reverse (p : Z) (l : list A) :
  filter (fun a => key a = p) (sort_reverse key l)
  = filter (fun a => key a = p) l.
Proof.
  induction l as [|x xs IH]; simpl; [done|].
  by rewrite filter_insert_desc, !filter_cons, IH.
Qed.

(** A list whose keys are all equal is left as it is. *)
Lemma sort_reverse_constant (k : Z) (l : list A) :
  Forall (fun a => key a = k) l -> sort_reverse key l = l.
Proof.
  induction 1 as [|x xs Hx Hxs IH]; simpl; [done|].
  rewrite IH. destruct Hxs as [|y ys Hy _]; simpl; [done|].
  rewrite Hx, Hy, Z.ltb_irrefl. done.
Qed.

End SortFacts.

Lemma filter_take_prefix {A} (P : A -> Prop) `{!forall a, Decision (P a)}
    (n : nat) (l : list A) :
  filter P (take n l) `prefix_of` filter P l.
Proof.
  exists (filter P (drop n l)).
  by rewrite <- filter_app, take_drop.
Qed.

Lemma for_each_Ok_Forall2 {A B} (body : A -> result B) (rows : list A) (out : list B) :
  for_each body rows = Ok out -> Forall2 (fun row b => body row = Ok b) rows out.
Proof.
  revert out. induction rows as [|row rest IH]; simpl; intros out H.
  - injection H as <-. constructor.
  - destruct (body row) as [b|e] eqn:Hb; simpl in H; [|discriminate].
    destruct (for_each body rest) as [bs|e] eqn:Hbs; simpl in H; [|discriminate].
    injection H as <-. constructor; [done|]. by apply IH.
Qed.

Lemma for_each_total {A B} (body : A -> result B) (f : A -> B) (rows : list A) :
  (forall row, body row = Ok (f row)) -> for_each body rows = Ok (map f rows).
Proof.
  intros Hbody. induction rows as [|row rest IH]; simpl; [done|].
  by rewrite Hbody, IH.
Qed.

(** [int] truncates toward zero wherever it returns. *)
Lemma int_truncated (x : float) (z : Z) : Py.int x = Ok z -> Spec.truncated x z.
Proof.
  unfold Py.int, Spec.truncated.
  destruct (Prim2SF x) as [s| s | |s m e]; intros H; try discriminate.
  - by injection H as <-.
  - injection H as <-.
    assert (Hmag : 0 <= Z.shiftl (Z.pos m) e) by (apply Z.shiftl_nonneg; lia).
    assert (Habs : Z.abs (if s then - Z.shiftl (Z.pos m) e else Z.shiftl (Z.pos m) e)
                   = Z.shiftl (Z.pos m) e) by (destruct s; lia).
    split; [destruct s; lia|].
    rewrite Habs. clear Habs.
    destruct (Z.le_gt_cases 0 e) as [He|He].
    + rewrite Z.max_l by lia. rewrite Z.shiftl_mul_pow2 by lia.
      rewrite Z.add_0_r. simpl (2 ^ 0). lia.
    + rewrite Z.max_r by lia.
      replace (e + - e) with 0 by lia.
      rewrite <- (Z.opp_involutive e) at 1 3.
      rewrite Z.shiftl_opp_r, Z.shiftr_div_pow2 by lia.
      assert (Hpow : 0 < 2 ^ (- e)) by (apply Z.pow_pos_nonneg; lia).
      pose proof (Z.mul_div_le (Z.pos m) (2 ^ (- e)) Hpow).
      pose proof (Z.mul_succ_div_gt (Z.pos m) (2 ^ (- e)) Hpow).
      simpl (2 ^ 0). lia.
Qed.

Lemma min_max_clamp (n : Z) : Z.min 10 (Z.max 1 n) = Spec.clamp 1 10 n.
Proof.
  unfold Spec.clamp.
  destruct (Z.ltb_spec n 1), (Z.ltb_spec 10 n); lia.
Qed.

(** The rule-based score is one of the values 5, 5.5, ..., 8: its integer
    part exists and lies between 5 and 8. *)
Lemma rule_score_int (row : RoutineRow) (features : Features) :
  exists n, Py.int (RecommendationService._calculate_rule_based_score row features) = Ok n
            /\ 5 <= n <= 8.
Proof.
  unfold RecommendationService._calculate_rule_based_score.
  destruct (gt _ _), (lt _ _), (has_cardio features && _),
           (has_strength features && _);
    (eexists; split; [vm_compute; reflexivity | lia]).
Qed.

Lemma recommend_row_inv (self : RecommendationService.t) (features : Features)
    (row : RoutineRow) (r : ExistingRoutineRecommendation) :
  RecommendationService.recommend_row self features row = Ok r ->
  exists z,
    Py.int (RecommendationService.candidate_score self row features) = Ok z
    /\ r = {| routine_id := id row;
              er_reasoning :=
                RecommendationService._generate_reasoning_for_existing_routine
                  row features (RecommendationService.use_ml self);
              er_priority := Z.min 10 (Z.max 1 z) |}.
Proof.
  unfold RecommendationService.recommend_row, RecommendationService.normalize_priority.
  destruct (Py.int _) as [z|e]; simpl; intros H; [|discriminate].
  injection H as <-. by exists z.
Qed.

Lemma recommend_existing_inv (self : RecommendationService.t) (uid : string)
    (routines : list RoutineRow) (features : Features)
    (recs : list ExistingRoutineRecommendation) :
  RecommendationService._recommend_existing_routines self uid routines features = Ok recs ->
  exists scored,
    for_each (RecommendationService.recommend_row self features) routines = Ok scored
    /\ recs = take 5 (sort_reverse er_priority scored).
Proof.
  unfold RecommendationService._recommend_existing_routines.
  destruct routines as [|row rest].
  - intros H. injection H as <-. by exists [].
  - destruct (for_each _ _) as [scored|e]; simpl; intros H; [|discriminate].
    injection H as <-. by exists scored.
Qed.

(** On the rule path every row is scored: the loop cannot raise. *)
Lemma rule_path_row_total (self : RecommendationService.t) (features : Features)
    (row : RoutineRow) :
  RecommendationService.use_ml self = false ->
  exists n,
    5 <= n <= 8
    /\ RecommendationService.recommend_row self features row
       = Ok {| routine_id := id row;
               er_reasoning :=
                 RecommendationService._generate_reasoning_for_existing_routine
                   row features false;
               er_priority := n |}.
Proof.
  intros Hml.
  unfold RecommendationService.recommend_row, RecommendationService.normalize_priority,
    RecommendationService.candidate_score.
  rewrite Hml.
  destruct (rule_score_int row features) as (n & -> & Hn).
  exists n. split; [done|]. simpl. do 2 f_equal. lia.
Qed.

Lemma rule_path_loop_total (self : RecommendationService.t) (features : Features)
    (routines : list RoutineRow) :
  RecommendationService.use_ml self = false ->
  exists scored,
    for_each (RecommendationService.recommend_row self features) routines = Ok scored.
Proof.
  intros Hml. induction routines as [|row rest [scored IH]]; simpl; [by eexists|].
  destruct (rule_path_row_total self features row Hml) as (n & _ & ->).
  rewrite IH. simpl. by eexists.
Qed.

Lemma rule_path_existing_total (self : RecommendationService.t) (uid : string)
    (routines : list RoutineRow) (features : Features) :
  RecommendationService.use_ml self = false ->
  exists recs,
    RecommendationService._recommend_existing_routines self uid routines features = Ok recs.
Proof.
  intros Hml. unfold RecommendationService._recommend_existing_routines.
  destruct routines as [|row rest]; [by eexists|].
  destruct (rule_path_loop_total self features (row :: rest) Hml) as [scored ->].
  simpl. by eexists.
Qed.

(* ===================================================================== *)
(** ** Properties of the engine *)
(* ===================================================================== *)

(** C3. The rule-based score is 5.0 plus 1.0 when completion_rate > 0.7,
    plus 1.0 when avg_time_delta < -60, plus 0.5 when has_cardio holds and
    the lower-cased name contains "cardio", plus 0.5 when has_strength holds
    and the name contains "strength" or "weight"; nothing is ever taken
    away, so the score is never below 5.0.  With completion_rate = 0.8,
    avg_time_delta = -90 and no keyword bonus the score is 7. *)
Theorem rule_based_score_is_base_plus_bonuses (row : RoutineRow) (features : Features) :
  RecommendationService._calculate_rule_based_score row features
    = Spec.rule_score row features
  /\ PrimFloat.leb 5.0 (RecommendationService._calculate_rule_based_score row features) = true
  /\ (completion_rate features = 0.8%float ->
      avg_time_delta features = (-90)%float ->
      has_cardio features && contains "cardio" (lower (name row)) = false ->
      has_strength features
        && (contains "strength" (lower (name row)) || contains "weight" (lower (name row)))
        = false ->
      RecommendationService._calculate_rule_based_score row features = 7.0%float).
Proof.
  unfold RecommendationService._calculate_rule_based_score, Spec.rule_score, any_in.
  cbn [existsb]. rewrite orb_false_r.
  split; [|split].
  - destruct (gt _ _), (lt _ _), (has_cardio features && _),
             (has_strength features && _); reflexivity.
  - destruct (gt _ _), (lt _ _), (has_cardio features && _),
             (has_strength features && _); reflexivity.
  - intros -> -> -> ->. reflexivity.
Qed.

Lemma rule_based_score_is_base_plus_bonuses_witness :
  let row := {| id := "r1"; name := "Morning Mobility" |} in
  completion_rate sample_features = 0.8%float
  /\ avg_time_delta sample_features = (-90)%float
  /\ RecommendationService._calculate_rule_based_score row sample_features = 7.0%float.
Proof.
  intros row. split; [reflexivity|]. split; [reflexivity|].
  apply (rule_based_score_is_base_plus_bonuses row sample_features);
    reflexivity.
Defined.

(** C4. Whenever the existing-routine pass returns, every recommendation it
    emits carries the priority clamp(truncate(score), 1, 10) of the score
    of its routine, where truncate is truncation toward zero (not rounding:
    5.999 gives 5), and so the priority is an integer between 1 and 10. *)
Theorem priority_is_clamped_truncation
    (self : RecommendationService.t) (uid : string) (routines : list RoutineRow)
    (features : Features) (recs : list ExistingRoutineRecommendation) :
  RecommendationService._recommend_existing_routines self uid routines features = Ok recs ->
  Forall (fun rec =>
            exists row z,
              row ∈ routines
              /\ routine_id rec = id row
              /\ Spec.truncated (RecommendationService.candidate_score self row features) z
              /\ er_priority rec = Spec.clamp 1 10 z
              /\ 1 <= er_priority rec <= 10) recs
  /\ RecommendationService.normalize_priority 5.999 = Ok 5.
Proof.
  intros H. split; [|reflexivity].
  apply recommend_existing_inv in H as (scored & Hloop & ->).
  apply for_each_Ok_Forall2 in Hloop.
  apply Forall_forall. intros rec Hin.
  apply (subseteq_take 5) in Hin.
  rewrite sort_reverse_perm in Hin.
  apply list_elem_of_lookup in Hin as [i Hi].
  destruct (Forall2_lookup_r _ _ _ _ _ Hloop Hi) as (row & Hrow & Hbody).
  apply recommend_row_inv in Hbody as (z & Hz & ->).
  exists row, z. simpl.
  split; [by eapply list_elem_of_lookup_2|].
  split; [done|].
  split; [by apply int_truncated|].
  split; [apply min_max_clamp|lia].
Qed.

Lemma priority_is_clamped_truncation_witness :
  RecommendationService._recommend_existing_routines
    untrained_service "u1" sample_library sample_features
    = Ok sample_recommendations
  /\ Forall (fun rec =>
               exists row z,
                 row ∈ sample_library
                 /\ routine_id rec = id row
                 /\ Spec.truncated
                      (RecommendationService.candidate_score
                         untrained_service row sample_features) z
                 /\ er_priority rec = Spec.clamp 1 10 z
                 /\ 1 <= er_priority rec <= 10) sample_recommendations.
Proof.
  split; [reflexivity|].
  apply (priority_is_clamped_truncation
           untrained_service "u1" sample_library sample_features
           sample_recommendations).
  reflexivity.
Defined.



(** C6. The existing-recommendation list that is returned is sorted by
    priority, highest first; recommendations of equal priority stand in the
    order in which their routines were met in the library; and the list
    has at most five entries. *)
Theorem existing_sorted_stable_top5
    (self : RecommendationService.t) (uid : string) (routines : list RoutineRow)
    (features : Features) (recs : list ExistingRoutineRecommendation) :
  RecommendationService._recommend_existing_routines self uid routines features = Ok recs ->
  exists scored rest,
    (* [scored]: one recommendation per routine, in library order *)
    for_each (RecommendationService.recommend_row self features) routines = Ok scored
    /\ map routine_id scored = map id routines
    /\ recs ++ rest ≡ₚ scored
    /\ StronglySorted Spec.priority_ge (recs ++ rest)
    /\ StronglySorted Spec.priority_ge recs
    /\ (forall p : Z,
          filter (fun r => er_priority r = p) recs
          `prefix_of` filter (fun r => er_priority r = p) scored)
    /\ (length recs <= 5)%nat
    /\ length recs = Nat.min 5 (length routines).
Proof.
  intros H.
  apply recommend_existing_inv in H as (scored & Hloop & ->).
  exists scored, (drop 5 (sort_reverse er_priority scored)).
  pose proof (for_each_Ok_Forall2 _ _ _ Hloop) as Hall.
  assert (Hids : map routine_id scored = map id routines).
  { clear Hloop. induction Hall as [|row r rows rs Hr _ IH]; simpl; [done|].
    apply recommend_row_inv in Hr as (z & _ & ->). simpl. by rewrite IH. }
  rewrite take_drop.
  split; [done|]. split; [done|].
  split; [apply sort_reverse_perm|].
  split; [apply (sort_reverse_sorted er_priority)|].
  split.
  { apply (StronglySorted_app_1_l _ _ (drop 5 (sort_reverse er_priority scored))).
    rewrite take_drop. apply (sort_reverse_sorted er_priority). }
  split.
  { intros p. rewrite <- (filter_sort_reverse er_priority p scored).
    apply filter_take_prefix. }
  rewrite length_take, (Permutation_length (sort_reverse_perm er_priority scored)).
  rewrite <- (Forall2_length _ _ _ Hall). lia.
Qed.

Lemma existing_sorted_stable_top5_witness :
  RecommendationService._recommend_existing_routines
    untrained_service "u1" sample_library sample_features
    = Ok sample_recommendations
  /\ StronglySorted Spec.priority_ge sample_recommendations
  /\ (length sample_recommendations <= 5)%nat.
Proof.
  split; [reflexivity|].
  destruct (existing_sorted_stable_top5
              untrained_service "u1" sample_library sample_features
              sample_recommendations eq_refl)
    as (scored & rest & _ & _ & _ & _ & Hsorted & _ & Hlen & _).
  split; [exact Hsorted | exact Hlen].
Defined.

(** C7. A model whose [is_trained] flag is false, or whose fitted
    classifier is missing, answers [predict] with exactly (0.5, 0.5) for
    every feature dictionary, and does not raise. *)
Theorem untrained_predict_is_neutral
    (self : SimpleRecommender.t) (user_features : Features) :
  SimpleRecommender.is_trained self = false \/ SimpleRecommender.model self = None ->
  SimpleRecommender.predict self user_features = Ok [0.5%float; 0.5%float].
Proof.
  unfold SimpleRecommender.predict.
  intros [-> | ->]; [done|]. by destruct (SimpleRecommender.is_trained self).
Qed.

Lemma untrained_predict_is_neutral_witness :
  (SimpleRecommender.is_trained SimpleRecommender.init = false
   \/ SimpleRecommender.model SimpleRecommender.init = None)
  /\ SimpleRecommender.predict SimpleRecommender.init sample_features
     = Ok [0.5%float; 0.5%float].
Proof.
  split; [left; reflexivity|].
  apply (untrained_predict_is_neutral SimpleRecommender.init sample_features).
  left. reflexivity.
Defined.

(** C2. When the fetched workout history and the fetched routine library
    are both empty, [generate_recommendations] returns no existing
    recommendation and exactly one new one: the balanced full-body
    template, priority 7. *)
Theorem empty_user_gets_default
    (self : RecommendationService.t) (db : Database) (uid : string) :
  fetch_user_workout_data db uid = Ok [] ->
  fetch_user_routines db uid = Ok [] ->
  exists balanced,
    RecommendationService.generate_recommendations self db uid
      = Ok {| existing_routines := []; new_routines := [balanced] |}
    /\ balanced = RecommendationService._create_balanced_routine RecommendationService.empty_dict
    /\ nr_name balanced = "Full Body Blast"
    /\ nr_priority balanced = 7.
Proof.
  intros Hw Hr.
  exists (RecommendationService._create_balanced_routine RecommendationService.empty_dict).
  unfold RecommendationService.generate_recommendations.
  rewrite Hw, Hr. done.
Qed.

Lemma empty_user_gets_default_witness :
  fetch_user_workout_data empty_database "u1" = Ok []
  /\ fetch_user_routines empty_database "u1" = Ok []
  /\ exists balanced,
       RecommendationService.generate_recommendations untrained_service empty_database "u1"
         = Ok {| existing_routines := []; new_routines := [balanced] |}
       /\ balanced = RecommendationService._create_balanced_routine RecommendationService.empty_dict
       /\ nr_name balanced = "Full Body Blast"
       /\ nr_priority balanced = 7.
Proof.
  split; [reflexivity|]. split; [reflexivity|].
  apply (empty_user_gets_default untrained_service empty_database "u1");
    reflexivity.
Defined.

(** What [os.makedirs] and [joblib.dump] raise is never a ValueError, and
    a call that raises changes nothing. *)
Lemma makedirs_outcome (d : string) (fs : SimpleRecommender.FileSystem) :
  match SimpleRecommender.makedirs d fs with
  | (Ok _, fs') =>
      SimpleRecommender.files fs' = SimpleRecommender.files fs
  | (Raise e, fs') => is_ValueError e = false /\ fs' = fs
  end.
Proof.
  unfold SimpleRecommender.makedirs.
  destruct (SimpleRecommender.is_file fs d); [done|].
  by destruct (existsb _ _).
Qed.

Lemma dump_outcome
    (obj : SimpleRecommender.Artifact) (filepath : string)
    (fs : SimpleRecommender.FileSystem) :
  match SimpleRecommender.dump obj filepath fs with
  | (Ok _, fs') =>
      SimpleRecommender.files fs' = <[ filepath := obj ]> (SimpleRecommender.files fs)
      /\ SimpleRecommender.dirs fs' = SimpleRecommender.dirs fs
  | (Raise e, fs') => is_ValueError e = false /\ fs' = fs
  end.
Proof.
  unfold SimpleRecommender.dump.
  destruct (String.eqb filepath ""); [done|].
  destruct (_ || _); [done|].
  destruct (existsb _ _); [done|].
  by destruct (_ && _).
Qed.

(** [save] on a trained model: the outcome is that of the two calls. *)
Lemma save_trained_outcome
    (filepath : string) (self : SimpleRecommender.t) (fs : SimpleRecommender.FileSystem) :
  SimpleRecommender.is_trained self = true ->
  match SimpleRecommender.save filepath (self, fs) with
  | (Ok _, (self', fs')) =>
      self' = self
      /\ SimpleRecommender.files fs'
         = <[ filepath := {| SimpleRecommender.a_model := SimpleRecommender.model self;
                            SimpleRecommender.a_scaler := SimpleRecommender.scaler self;
                            SimpleRecommender.a_is_trained := Some true |} ]>
             (SimpleRecommender.files fs)
  | (Raise e, (self', fs')) => is_ValueError e = false /\ self' = self
  end.
Proof.
  intros Htrained. unfold SimpleRecommender.save. rewrite Htrained. cbn [negb].
  pose proof (makedirs_outcome
                (if String.eqb (SimpleRecommender.dirname filepath) ""
                 then "." else SimpleRecommender.dirname filepath) fs) as Hmk.
  destruct (SimpleRecommender.makedirs _ fs) as [[u|e] fs1]; [|by destruct Hmk].
  pose proof (dump_outcome
                {| SimpleRecommender.a_model := SimpleRecommender.model self;
                   SimpleRecommender.a_scaler := SimpleRecommender.scaler self;
                   SimpleRecommender.a_is_trained := Some true |} filepath fs1) as Hdump.
  destruct (SimpleRecommender.dump _ filepath fs1) as [[u'|e] fs2].
  - destruct Hdump as [Hfiles _]. split; [done|]. by rewrite Hfiles, Hmk.
  - by destruct Hdump.
Qed.

Lemma save_Ok_inv
    (filepath : string) (self self' : SimpleRecommender.t)
    (fs fs' : SimpleRecommender.FileSystem) :
  SimpleRecommender.save filepath (self, fs) = (Ok tt, (self', fs')) ->
  SimpleRecommender.is_trained self = true
  /\ self' = self
  /\ SimpleRecommender.files fs'
     = <[ filepath := {| SimpleRecommender.a_model := SimpleRecommender.model self;
                        SimpleRecommender.a_scaler := SimpleRecommender.scaler self;
                        SimpleRecommender.a_is_trained := Some true |} ]>
         (SimpleRecommender.files fs).
Proof.
  intros Hsave.
  destruct (SimpleRecommender.is_trained self) eqn:Htrained.
  - pose proof (save_trained_outcome filepath self fs Htrained) as Hout.
    rewrite Hsave in Hout. by destruct Hout.
  - unfold SimpleRecommender.save in Hsave. rewrite Htrained in Hsave.
    discriminate Hsave.
Qed.



(** With the all-default feature vector every routine scores the base 5.0
    on the rule path and gets the generic reasoning. *)
Lemma default_features_row (self : RecommendationService.t) (row : RoutineRow) :
  RecommendationService.use_ml self = false ->
  RecommendationService.recommend_row self (prepare_features_for_ml [] [row]) row
    = Ok {| routine_id := id row;
            er_reasoning := Spec.generic_reasoning;
            er_priority := 5 |}.
Proof.
  intros Hml.
  unfold RecommendationService.recommend_row, RecommendationService.candidate_score,
    RecommendationService._generate_reasoning_for_existing_routine.
  rewrite Hml. cbn [prepare_features_for_ml has_cardio has_strength].
  rewrite !andb_false_r. reflexivity.
Qed.

(** C10. When the fetched workout history is empty, the routine library is
    not, and the model is untrained, the new routines are exactly
    [quick workout (9); cardio (8); strength (8)] and the existing
    recommendations are the first min(5, library size) routines in library
    order, each with priority 5 and the generic reasoning. *)
Theorem empty_history_with_library
    (self : RecommendationService.t) (db : Database) (uid : string)
    (routines : list RoutineRow) :
  fetch_user_workout_data db uid = Ok [] ->
  fetch_user_routines db uid = Ok routines ->
  routines <> [] ->
  SimpleRecommender.is_trained (RecommendationService.model self) = false ->
  exists existing new,
    RecommendationService.generate_recommendations self db uid
      = Ok {| existing_routines := existing; new_routines := new |}
    /\ existing
       = map (fun row => {| routine_id := id row;
                            er_reasoning := Spec.generic_reasoning;
                            er_priority := 5 |})
             (take 5 routines)
    /\ length existing = Nat.min 5 (length routines)
    /\ new = [ RecommendationService._create_quick_workout_routine
                 (prepare_features_for_ml [] routines);
               RecommendationService._create_cardio_routine
                 (prepare_features_for_ml [] routines);
               RecommendationService._create_strength_routine
                 (prepare_features_for_ml [] routines) ]
    /\ map nr_priority new = [9; 8; 8].
Proof.
  intros Hw Hr Hne Huntrained.
  assert (Hml : RecommendationService.use_ml self = false).
  { unfold RecommendationService.use_ml. by rewrite Huntrained. }
  set (generic := fun row => {| routine_id := id row;
                                er_reasoning := Spec.generic_reasoning;
                                er_priority := 5 |}).
  exists (map generic (take 5 routines)). eexists.
  split; [|split; [reflexivity|split; [|split; reflexivity]]].
  - unfold RecommendationService.generate_recommendations.
    rewrite Hw, Hr. cbn [mbind result_bind bind].
    destruct routines as [|row rest]; [done|]. clear Hne.
    rewrite (bool_decide_eq_false_2 (row :: rest = [])) by done.
    rewrite andb_false_r.
    unfold RecommendationService._recommend_existing_routines.
    rewrite (for_each_total _ generic) by (intros r; by apply default_features_row).
    cbn [mbind result_bind bind].
    rewrite (sort_reverse_constant er_priority 5)
      by (apply Forall_forall; intros r [r' [<- _]]%list_elem_of_In%in_map_iff; done).
    rewrite firstn_map. reflexivity.
  - rewrite length_map, length_take. lia.
Qed.

Lemma empty_history_with_library_witness :
  fetch_user_workout_data library_only_database "u1" = Ok []
  /\ fetch_user_routines library_only_database "u1" = Ok sample_library
  /\ sample_library <> []
  /\ exists existing new,
       RecommendationService.generate_recommendations
         untrained_service library_only_database "u1"
         = Ok {| existing_routines := existing; new_routines := new |}
       /\ map routine_id existing = ["r1"; "r2"; "r3"; "r4"; "r5"]
       /\ map er_priority existing = [5; 5; 5; 5; 5]
       /\ map nr_priority new = [9; 8; 8].
Proof.
  split; [reflexivity|]. split; [reflexivity|]. split; [discriminate|].
  destruct (empty_history_with_library
              untrained_service library_only_database "u1" sample_library
              eq_refl eq_refl ltac:(discriminate) eq_refl)
    as (existing & new & Hgen & -> & _ & -> & _).
  eexists _, _. split; [exact Hgen|]. repeat split; reflexivity.
Defined.

(** C1, at the empty user id.  The empty user id, for which the data store holds nothing, is served
    like any other unknown user: the handler answers with the default
    recommendations, not with a client error. *)
Lemma empty_user_id_is_served :
  Main.get_recommendations (Some untrained_service) empty_database {| Main.user_id := "" |}
    = Main.Response RecommendationService._generate_default_recommendations
  /\ ~ (exists detail,
          Main.get_recommendations (Some untrained_service) empty_database
            {| Main.user_id := "" |}
          = Main.HTTPException Main.HTTP_400_BAD_REQUEST detail).
Proof.
  split; [reflexivity|]. intros [detail H]. discriminate H.
Qed.

(** An exception of a loop is the exception of one of its rows. *)
Lemma for_each_Raise {A B} (body : A -> result B) (rows : list A) (e : exn) :
  for_each body rows = Raise e -> exists row, row ∈ rows /\ body row = Raise e.
Proof.
  induction rows as [|row rest IH]; simpl; intros H; [discriminate|].
  destruct (body row) as [b|e'] eqn:Hb; simpl in H.
  - destruct (for_each body rest) as [bs|e'']; simpl in H; [discriminate|].
    destruct (IH H) as (r & Hr & Hbody).
    exists r. split; [by apply list_elem_of_further|done].
  - injection H as ->. exists row. split; [apply list_elem_of_here|done].
Qed.

(** Where an exception of [generate_recommendations] comes from: one of the
    two queries, or [int] on the score of a routine while the model is in
    use.  Nothing else on the way can raise. *)
Lemma generate_recommendations_Raise
    (service : RecommendationService.t) (db : Database) (uid : string) (e : exn) :
  RecommendationService.generate_recommendations service db uid = Raise e ->
  workout_rows db uid = Raise e
  \/ ((exists workouts, workout_rows db uid = Ok workouts)
      /\ routine_rows db uid = Raise e)
  \/ (RecommendationService.use_ml service = true
      /\ exists workouts routines row,
           workout_rows db uid = Ok workouts
           /\ routine_rows db uid = Ok routines
           /\ row ∈ routines
           /\ Py.int (RecommendationService.candidate_score service row
                        (prepare_features_for_ml workouts routines)) = Raise e).
Proof.
  unfold RecommendationService.generate_recommendations,
    fetch_user_workout_data, fetch_user_routines.
  destruct (workout_rows db uid) as [workouts|e1]; cbn [mbind result_bind bind];
    [|intros H; injection H as ->; by left].
  replace (match workouts with [] => Ok [] | _ :: _ => Ok workouts end)
    with (Ok workouts) by (by destruct workouts).
  cbn [mbind result_bind bind].
  destruct (routine_rows db uid) as [routines|e2]; cbn [mbind result_bind bind];
    [|intros H; injection H as ->; right; left; split; [by eexists|done]].
  replace (match routines with [] => Ok [] | _ :: _ => Ok routines end)
    with (Ok routines) by (by destruct routines).
  cbn [mbind result_bind bind].
  destruct (bool_decide (workouts = []) && bool_decide (routines = []));
    [discriminate|].
  destruct (RecommendationService._recommend_existing_routines service uid routines
              (prepare_features_for_ml workouts routines)) as [recs|e3] eqn:Hex;
    cbn [mbind result_bind bind]; [discriminate|].
  intros H. injection H as ->. right. right.
  destruct (RecommendationService.use_ml service) eqn:Hml.
  2:{ destruct (rule_path_existing_total service uid routines
                  (prepare_features_for_ml workouts routines) Hml) as [recs Hrecs].
      rewrite Hrecs in Hex. discriminate Hex. }
  split; [done|]. exists workouts, routines.
  unfold RecommendationService._recommend_existing_routines in Hex.
  destruct routines as [|row0 rest]; [discriminate|].
  destruct (for_each _ (row0 :: rest)) as [scored|e4] eqn:Hloop;
    cbn [mbind result_bind bind] in Hex; [discriminate|].
  injection Hex as ->.
  apply for_each_Raise in Hloop as (row & Hrow & Hbody).
  exists row. repeat split; try done.
  unfold RecommendationService.recommend_row,
    RecommendationService.normalize_priority in Hbody.
  destruct (Py.int _) as [n|e5]; cbn [mbind result_bind bind] in Hbody;
    [discriminate|].
  by injection Hbody as ->.
Qed.

(** The user id reaches the result through the two queries only. *)
Lemma generate_recommendations_by_answers
    (service : RecommendationService.t) (db : Database) (uid uid' : string) :
  workout_rows db uid' = workout_rows db uid ->
  routine_rows db uid' = routine_rows db uid ->
  RecommendationService.generate_recommendations service db uid'
  = RecommendationService.generate_recommendations service db uid.
Proof.
  intros Hw Hr.
  unfold RecommendationService.generate_recommendations,
    fetch_user_workout_data, fetch_user_routines.
  by rewrite Hw, Hr.
Qed.

(** C1, as the code has it.  The user id is not validated: it is handed to
    the data store as it is, the empty string included, and the answer
    depends on it only through what the two queries answer, whatever the
    model.  When the store holds no workout and no routine for it, the
    answer is the default recommendation response; when either query raises
    an exception other than ValueError, the answer is a 500; and with an
    untrained model and a store that answers both queries, the answer is
    always a normal response.  A 400 arises only from a ValueError raised
    further down, by one of the two queries or by [int] on a routine's
    score while the model is in use, never from the shape of the id. *)
Theorem user_id_is_not_validated
    (service : RecommendationService.t) (db : Database) (request : Main.RecommendationRequest) :
  (workout_rows db (Main.user_id request) = Ok [] ->
   routine_rows db (Main.user_id request) = Ok [] ->
   Main.get_recommendations (Some service) db request
     = Main.Response RecommendationService._generate_default_recommendations)
  /\ (forall e,
        is_ValueError e = false ->
        workout_rows db (Main.user_id request) = Raise e
        \/ ((exists workouts, workout_rows db (Main.user_id request) = Ok workouts)
            /\ routine_rows db (Main.user_id request) = Raise e) ->
        Main.get_recommendations (Some service) db request
          = Main.HTTPException Main.HTTP_500_INTERNAL_SERVER_ERROR
              ("Failed to generate recommendations: " +:+ str_of_exn e))
  /\ (forall workouts routines,
        RecommendationService.use_ml service = false ->
        workout_rows db (Main.user_id request) = Ok workouts ->
        routine_rows db (Main.user_id request) = Ok routines ->
        exists body, Main.get_recommendations (Some service) db request = Main.Response body)
  /\ (forall request',
        workout_rows db (Main.user_id request') = workout_rows db (Main.user_id request) ->
        routine_rows db (Main.user_id request') = routine_rows db (Main.user_id request) ->
        Main.get_recommendations (Some service) db request'
        = Main.get_recommendations (Some service) db request)
  /\ (forall detail,
        Main.get_recommendations (Some service) db request
          = Main.HTTPException Main.HTTP_400_BAD_REQUEST detail ->
        workout_rows db (Main.user_id request) = Raise (ValueError detail)
        \/ ((exists workouts, workout_rows db (Main.user_id request) = Ok workouts)
            /\ routine_rows db (Main.user_id request) = Raise (ValueError detail))
        \/ (RecommendationService.use_ml service = true
            /\ exists workouts routines row,
                 workout_rows db (Main.user_id request) = Ok workouts
                 /\ routine_rows db (Main.user_id request) = Ok routines
                 /\ row ∈ routines
                 /\ Py.int (RecommendationService.candidate_score service row
                              (prepare_features_for_ml workouts routines))
                    = Raise (ValueError detail))).
Proof.
  split; [|split; [|split; [|split]]].
  - unfold Main.get_recommendations, RecommendationService.generate_recommendations,
      fetch_user_workout_data, fetch_user_routines.
    intros -> ->. reflexivity.
  - intros e He Hraise.
    assert (Hgen : RecommendationService.generate_recommendations service db
                     (Main.user_id request) = Raise e).
    { unfold RecommendationService.generate_recommendations,
        fetch_user_workout_data, fetch_user_routines.
      destruct Hraise as [-> | [[workouts ->] ->]]; [done|].
      by destruct workouts. }
    unfold Main.get_recommendations. rewrite Hgen. by destruct e.
  - unfold Main.get_recommendations, RecommendationService.generate_recommendations,
      fetch_user_workout_data, fetch_user_routines.
    intros workouts routines Hml -> ->. cbn [mbind result_bind bind].
    replace (match workouts with [] => Ok [] | _ :: _ => Ok workouts end)
      with (Ok workouts) by (by destruct workouts).
    replace (match routines with [] => Ok [] | _ :: _ => Ok routines end)
      with (Ok routines) by (by destruct routines).
    cbn [mbind result_bind bind].
    destruct (bool_decide (workouts = []) && bool_decide (routines = []));
      [eexists; reflexivity|].
    destruct (rule_path_existing_total service (Main.user_id request) routines
                (prepare_features_for_ml workouts routines) Hml) as [recs ->].
    eexists; reflexivity.
  - intros request' Hw Hr. unfold Main.get_recommendations.
    by rewrite (generate_recommendations_by_answers service db
                  (Main.user_id request) (Main.user_id request') Hw Hr).
  - intros detail Hanswer.
    apply generate_recommendations_Raise.
    unfold Main.get_recommendations in Hanswer.
    destruct (RecommendationService.generate_recommendations service db
                (Main.user_id request)) as [body|e]; [discriminate|].
    destruct e; try (injection Hanswer as Hstatus _; discriminate Hstatus).
    by injection Hanswer as ->.
Qed.

Lemma user_id_is_not_validated_witness :
  workout_rows empty_database "" = Ok []
  /\ routine_rows empty_database "" = Ok []
  /\ Main.get_recommendations (Some untrained_service) empty_database {| Main.user_id := "" |}
     = Main.Response RecommendationService._generate_default_recommendations.
Proof.
  split; [reflexivity|]. split; [reflexivity|].
  apply (user_id_is_not_validated untrained_service empty_database {| Main.user_id := "" |});
    reflexivity.
Defined.

(** When the model is in use and [predict] raises, the row is scored by the
    rules and nothing is raised, but the reasoning is still chosen by the
    [use_ml] flag computed before the loop: it is the model statement. *)
Lemma fallback_keeps_model_reasoning
    (self : RecommendationService.t) (features : Features) (row : RoutineRow) (e : exn) :
  RecommendationService.use_ml self = true ->
  SimpleRecommender.predict (RecommendationService.model self) features = Raise e ->
  exists n,
    RecommendationService.normalize_priority
      (RecommendationService._calculate_rule_based_score row features) = Ok n
    /\ RecommendationService.recommend_row self features row
       = Ok {| routine_id := id row;
               er_reasoning := Spec.model_reasoning;
               er_priority := n |}.
Proof.
  intros Hml Hraise.
  unfold RecommendationService.recommend_row, RecommendationService.candidate_score,
    RecommendationService._generate_reasoning_for_existing_routine.
  rewrite Hml, Hraise.
  unfold RecommendationService.normalize_priority.
  destruct (rule_score_int row features) as (n & -> & _).
  eexists. split; reflexivity.
Qed.

(** C8, evaluated on the code.  The trained model of the sample raises in
    [predict]; the routine "Cardio and Strength Mix" then gets the
    rule-based priority 8 and no exception reaches the caller, but its
    reasoning is the model statement, not the rule-path reasoning. *)
Theorem fallback_reasoning_on_sample :
  let row := {| id := "r3"; name := "Cardio and Strength Mix" |} in
  RecommendationService.use_ml trained_service = true
  /\ SimpleRecommender.predict trained_model sample_features
     = Raise (ValueError "The feature names should match those that were passed during fit.")
  /\ RecommendationService.normalize_priority
       (RecommendationService._calculate_rule_based_score row sample_features) = Ok 8
  /\ RecommendationService._recommend_existing_routines
       trained_service "u1" [row] sample_features
     = Ok [ {| routine_id := "r3";
               er_reasoning := Spec.model_reasoning;
               er_priority := 8 |} ]
  /\ RecommendationService._generate_reasoning_for_existing_routine row sample_features false
     = "Recommended because You have a high completion rate, you finish workouts efficiently, matches your cardio preferences, aligns with your strength training."
  /\ Spec.model_reasoning
     <> RecommendationService._generate_reasoning_for_existing_routine row sample_features false.
Proof.
  intros row. repeat split; try reflexivity. discriminate.
Qed.

(** The constraints of the response schemas hold for everything the engine
    builds: the five templates, and every existing-routine recommendation. *)
Lemma templates_fields_ok {D : Type} (features : D) :
  forallb new_fields_ok
    [ RecommendationService._create_quick_workout_routine features;
      RecommendationService._create_time_efficient_routine features;
      RecommendationService._create_cardio_routine features;
      RecommendationService._create_strength_routine features;
      RecommendationService._create_balanced_routine features ] = true.
Proof. reflexivity. Qed.

Lemma existing_fields_ok_emitted
    (self : RecommendationService.t) (uid : string) (routines : list RoutineRow)
    (features : Features) (recs : list ExistingRoutineRecommendation) :
  RecommendationService._recommend_existing_routines self uid routines features = Ok recs ->
  forallb existing_fields_ok recs = true.
Proof.
  intros H. apply recommend_existing_inv in H as (scored & Hloop & ->).
  apply for_each_Ok_Forall2 in Hloop.
  apply forallb_forall. intros rec Hin.
  apply list_elem_of_In, (subseteq_take 5) in Hin.
  rewrite sort_reverse_perm in Hin.
  apply list_elem_of_lookup in Hin as [i Hi].
  destruct (Forall2_lookup_r _ _ _ _ _ Hloop Hi) as (row & _ & Hbody).
  apply recommend_row_inv in Hbody as (z & _ & ->).
  unfold existing_fields_ok. simpl. apply andb_true_iff.
  split; apply Z.leb_le; lia.
Qed.

(* ===================================================================== *)
(** ** Further properties: floats and strings *)
(* ===================================================================== *)

Lemma is_nan_Prim2SF (x : float) :
  PrimFloat.is_nan x = true <-> Prim2SF x = S754_nan.
Proof.
  unfold PrimFloat.is_nan. rewrite FloatAxioms.eqb_spec.
  unfold SFeqb, SFcompare.
  destruct (Prim2SF x) as [s|s| |s m e]; try (by destruct s).
  - done.
  - rewrite Z.compare_refl, Pos.compare_cont_refl. by destruct s.
Qed.

Lemma notna_Prim2SF (x : float) : notna x = true <-> Prim2SF x <> S754_nan.
Proof.
  unfold notna. rewrite negb_true_iff, <- is_nan_Prim2SF.
  by destruct (PrimFloat.is_nan x).
Qed.

(** Rounding keeps a non-negative mantissa non-negative, so it never
    produces a NaN. *)
Lemma shr_1_nonneg (mrs : shr_record) : 0 <= shr_m mrs -> 0 <= shr_m (shr_1 mrs).
Proof.
  destruct mrs as [m r s]. simpl. intros Hm.
  destruct m as [|[p|p|]|[p|p|]]; simpl; lia.
Qed.

Lemma iter_pos_shr_1_nonneg (p : positive) (mrs : shr_record) :
  0 <= shr_m mrs -> 0 <= shr_m (SpecFloat.iter_pos shr_1 p mrs).
Proof.
  revert mrs. induction p as [p IH|p IH|]; simpl; intros mrs Hm.
  - by apply IH, IH, shr_1_nonneg.
  - by apply IH, IH.
  - by apply shr_1_nonneg.
Qed.

Lemma shr_fexp_nonneg (m e : Z) (l : location) :
  0 <= m -> 0 <= shr_m (fst (shr_fexp prec emax m e l)).
Proof.
  intros Hm. unfold shr_fexp, shr.
  assert (H0 : 0 <= shr_m (shr_record_of_loc m l)) by (by destruct l as [|[]]).
  destruct (_ - e); simpl; [done| |done].
  by apply iter_pos_shr_1_nonneg.
Qed.

Lemma binary_round_aux_not_nan (sx : bool) (mx ex : Z) (lx : location) :
  0 <= mx -> binary_round_aux prec emax sx mx ex lx <> S754_nan.
Proof.
  intros Hm. unfold binary_round_aux.
  pose proof (shr_fexp_nonneg mx ex lx Hm) as H1.
  destruct (shr_fexp prec emax mx ex lx) as [mrs' e']. simpl in H1.
  assert (H2 : 0 <= round_nearest_even (shr_m mrs') (loc_of_shr_record mrs')).
  { unfold round_nearest_even.
    destruct (loc_of_shr_record mrs') as [|[]]; try lia.
    destruct (Z.even _); lia. }
  pose proof (shr_fexp_nonneg _ e' loc_Exact H2) as H3.
  destruct (shr_fexp prec emax _ e' loc_Exact) as [mrs'' e'']. simpl in H3.
  destruct (shr_m mrs''); [done| |lia].
  by destruct (_ <=? _).
Qed.

(** Dividing a number by 60 gives a number. *)
Lemma div_60_notna (x : float) : notna x = true -> notna (x / 60) = true.
Proof.
  rewrite !notna_Prim2SF, FloatAxioms.div_spec.
  change (Prim2SF 60) with (S754_finite false 8444249301319680 (-47)).
  unfold SF64div, SFdiv.
  destruct (Prim2SF x) as [s|s| |s m e]; try done.
  intros _.
  destruct (SFdiv_core_binary _ _ _ _ _ _) as [[mz ez] lz] eqn:Hcore.
  apply binary_round_aux_not_nan.
  unfold SFdiv_core_binary in Hcore.
  set (m' := match _ - (_ : Z) with Z0 => _ | Z.pos _ => _ | Z.neg _ => _ end) in Hcore.
  assert (Hm' : 0 <= m').
  { subst m'. destruct (_ - _); [lia| |lia]. apply Z.shiftl_nonneg. lia. }
  pose proof (Z_div_mod m' (Z.pos 8444249301319680) ltac:(lia)) as Hdiv.
  destruct (Z.div_eucl m' _) as [q r]. injection Hcore as <- _ _.
  nia.
Qed.

(** [int] of ten times a NaN raises ValueError, of ten times an infinity
    OverflowError. *)
Lemma int_times_10_nan (x : float) :
  PrimFloat.is_nan x = true ->
  Py.int (x * 10) = Raise (ValueError "cannot convert float NaN to integer").
Proof.
  intros Hx%is_nan_Prim2SF. unfold Py.int.
  by rewrite FloatAxioms.mul_spec, Hx.
Qed.

Lemma int_times_10_infinity (x : float) (s : bool) :
  Prim2SF x = S754_infinity s ->
  Py.int (x * 10) = Raise (OverflowError "cannot convert float infinity to integer").
Proof.
  intros Hx. unfold Py.int. rewrite FloatAxioms.mul_spec, Hx.
  change (Prim2SF 10) with (S754_finite false 5629499534213120 (-49)).
  reflexivity.
Qed.

(** A word without the separator is found in [a ++ sep ++ b] exactly when
    it is found in [a] or in [b]. *)
Lemma prefix_app_sep (c : ascii) (w a b : string) :
  occurs c w = false ->
  String.prefix w (a +:+ String c b) = String.prefix w a.
Proof.
  revert a. induction w as [|x w IH]; intros a Hw; [by destruct a|].
  simpl in Hw. apply orb_false_iff in Hw as [Hx Hw].
  destruct a as [|y a]; simpl.
  - destruct (ascii_dec x c) as [->|_]; [|done].
    by rewrite Ascii.eqb_refl in Hx.
  - destruct (ascii_dec x y); [by apply IH|done].
Qed.

Lemma contains_app_sep (c : ascii) (w a b : string) :
  occurs c w = false ->
  contains w (a +:+ String c b) = contains w a || contains w b.
Proof.
  intros Hw. induction a as [|y a IH].
  - change ("" +:+ String c b) with (String c b).
    cbn [contains]. rewrite <- (prefix_app_sep c w "" b Hw).
    change ("" +:+ String c b) with (String c b).
    by rewrite orb_false_r.
  - change (String y a +:+ String c b) with (String y (a +:+ String c b)).
    cbn [contains]. rewrite IH.
    change (String y (a +:+ String c b)) with (String y a +:+ String c b).
    rewrite (prefix_app_sep c w (String y a) b Hw).
    by rewrite orb_assoc.
Qed.

Lemma contains_join_space (w : string) (parts : list string) :
  occurs " " w = false -> w <> "" ->
  contains w (join " " parts) = existsb (contains w) parts.
Proof.
  intros Hw Hne. induction parts as [|p rest IH].
  - simpl. destruct w; [done|]. reflexivity.
  - destruct rest as [|q rest].
    + simpl. by rewrite orb_false_r.
    + change (join " " (p :: q :: rest)) with (p +:+ String " " (join " " (q :: rest))).
      rewrite contains_app_sep by done. rewrite IH. reflexivity.
Qed.

(** Searching the joined names for keywords is searching each name. *)
Lemma any_in_join_names (words : list string) (routines : list RoutineRow) :
  Forall (fun w => occurs " " w = false /\ w <> "") words ->
  any_in words (join " " (map (fun r => lower (name r)) routines)) = true
  <-> exists r word,
        r ∈ routines /\ word ∈ words /\ contains word (lower (name r)) = true.
Proof.
  intros Hwords. unfold any_in. rewrite existsb_exists. split.
  - intros (word & Hin & Hc).
    apply list_elem_of_In in Hin.
    destruct (proj1 (Forall_forall _ _) Hwords word Hin) as [Hsp Hne].
    rewrite contains_join_space in Hc by done.
    apply existsb_exists in Hc as (n & Hn & Hc).
    apply in_map_iff in Hn as (r & <- & Hr).
    exists r, word. by rewrite list_elem_of_In.
  - intros (r & word & Hr & Hin & Hc).
    exists word. split; [by apply list_elem_of_In|].
    destruct (proj1 (Forall_forall _ _) Hwords word Hin) as [Hsp Hne].
    rewrite contains_join_space by done.
    apply existsb_exists. exists (lower (name r)). split; [|done].
    apply in_map_iff. exists r. by rewrite <- list_elem_of_In.
Qed.

Lemma cardio_words_plain :
  Forall (fun w => occurs " " w = false /\ w <> "") cardio_words.
Proof. repeat constructor; discriminate. Qed.

Lemma strength_words_plain :
  Forall (fun w => occurs " " w = false /\ w <> "") strength_words.
Proof. repeat constructor; discriminate. Qed.

(* ===================================================================== *)
(** ** Further properties: feature extraction *)
(* ===================================================================== *)

Lemma float_or_zero_notna (v : option float) : notna (float_or_zero v) = true.
Proof.
  unfold float_or_zero. destruct v as [x|]; [|reflexivity].
  destruct (notna x) eqn:Hx; [done|reflexivity].
Qed.

(** X1. No float of the feature vector is ever NaN, whatever the rows
    hold: a missing or NaN aggregate becomes 0.0, and so does the mean
    duration when there is nothing to average. *)
Theorem features_never_nan (workout_df : list WorkoutRow) (routines_df : list RoutineRow) :
  notna (completion_rate (prepare_features_for_ml workout_df routines_df)) = true
  /\ notna (avg_time_delta (prepare_features_for_ml workout_df routines_df)) = true
  /\ notna (avg_duration (prepare_features_for_ml workout_df routines_df)) = true.
Proof.
  destruct workout_df as [|row0 rest]; [by repeat split|].
  cbn [prepare_features_for_ml completion_rate avg_time_delta avg_duration].
  split; [apply float_or_zero_notna|]. split; [apply float_or_zero_notna|].
  destruct (filter _ (row0 :: rest)); [reflexivity|].
  destruct (notna (series_mean _)) eqn:Hmean; [|reflexivity].
  by apply div_60_notna.
Qed.

Lemma flags_from_names
    (row0 : WorkoutRow) (rest : list WorkoutRow) (routines_df : list RoutineRow) :
  (has_cardio (prepare_features_for_ml (row0 :: rest) routines_df) = true
   <-> exists r word,
         r ∈ routines_df /\ word ∈ cardio_words
         /\ contains word (lower (name r)) = true)
  /\ (has_strength (prepare_features_for_ml (row0 :: rest) routines_df) = true
      <-> exists r word,
            r ∈ routines_df /\ word ∈ strength_words
            /\ contains word (lower (name r)) = true).
Proof.
  cbn [prepare_features_for_ml has_cardio has_strength].
  split.
  - destruct routines_df as [|r rs].
    + split; [done|]. intros (r & w & Hr & _). by apply elem_of_nil in Hr.
    + apply any_in_join_names, cardio_words_plain.
  - destruct routines_df as [|r rs].
    + split; [done|]. intros (r & w & Hr & _). by apply elem_of_nil in Hr.
    + apply any_in_join_names, strength_words_plain.
Qed.

Lemma rule_score_eq_spec (row : RoutineRow) (features : Features) :
  RecommendationService._calculate_rule_based_score row features
  = Spec.rule_score row features.
Proof.
  unfold RecommendationService._calculate_rule_based_score, Spec.rule_score, any_in.
  cbn [existsb]. rewrite orb_false_r.
  destruct (gt _ _), (lt _ _), (has_cardio features && _),
           (has_strength features && _); reflexivity.
Qed.

(** X2. For a user with workout history, [has_cardio] holds exactly when
    some routine of the library has a name that, lower-cased, contains one
    of the cardio keywords, and likewise [has_strength]: joining the names
    with spaces creates no match of its own.  Without history both are
    false. *)
Theorem keyword_flags_per_routine
    (row0 : WorkoutRow) (rest : list WorkoutRow) (routines_df : list RoutineRow) :
  (has_cardio (prepare_features_for_ml (row0 :: rest) routines_df) = true
   <-> exists r word,
         r ∈ routines_df /\ word ∈ cardio_words
         /\ contains word (lower (name r)) = true)
  /\ (has_strength (prepare_features_for_ml (row0 :: rest) routines_df) = true
      <-> exists r word,
            r ∈ routines_df /\ word ∈ strength_words
            /\ contains word (lower (name r)) = true)
  /\ has_cardio (prepare_features_for_ml [] routines_df) = false
  /\ has_strength (prepare_features_for_ml [] routines_df) = false.
Proof.
  destruct (flags_from_names row0 rest routines_df) as [Hc Hs].
  split; [exact Hc|]. split; [exact Hs|]. by split.
Qed.

(** X3. For a routine of the user's own library (and a user with
    history), the feature flags in the keyword bonuses are implied by the
    name: the rule-based score is 5.0 plus the two performance bonuses plus
    0.5 when the name contains "cardio" plus 0.5 when it contains
    "strength" or "weight". *)
Theorem library_keywords_earn_bonus
    (row0 : WorkoutRow) (rest : list WorkoutRow) (routines_df : list RoutineRow)
    (row : RoutineRow) :
  row ∈ routines_df ->
  RecommendationService._calculate_rule_based_score row
    (prepare_features_for_ml (row0 :: rest) routines_df)
  = (5.0
     + Spec.bonus (gt (float_or_zero (w_completion_rate row0)) 0.7) 1.0
     + Spec.bonus (lt (float_or_zero (w_avg_time_delta row0)) (-60)) 1.0
     + Spec.bonus (contains "cardio" (lower (name row))) 0.5
     + Spec.bonus (contains "strength" (lower (name row))
                   || contains "weight" (lower (name row))) 0.5)%float.
Proof.
  intros Hrow.
  rewrite rule_score_eq_spec.
  destruct (flags_from_names row0 rest routines_df) as (Hc & Hs).
  unfold Spec.rule_score.
  set (f := prepare_features_for_ml (row0 :: rest) routines_df) in *.
  assert (H1 : has_cardio f && contains "cardio" (lower (name row))
               = contains "cardio" (lower (name row))).
  { destruct (contains "cardio" _) eqn:Hk; [|apply andb_false_r].
    rewrite andb_true_r. apply Hc. exists row, "cardio".
    split; [done|]. split; [|done]. apply list_elem_of_In. simpl. tauto. }
  assert (H2 : has_strength f
               && (contains "strength" (lower (name row))
                   || contains "weight" (lower (name row)))
               = contains "strength" (lower (name row))
                 || contains "weight" (lower (name row))).
  { destruct (contains "strength" _) eqn:Hk1; cbn [orb].
    - rewrite andb_true_r. apply Hs. exists row, "strength".
      split; [done|]. split; [|done]. apply list_elem_of_In. simpl. tauto.
    - destruct (contains "weight" _) eqn:Hk2; [|apply andb_false_r].
      rewrite andb_true_r. apply Hs. exists row, "weight".
      split; [done|]. split; [|done]. apply list_elem_of_In. simpl. tauto. }
  rewrite H1, H2. reflexivity.
Qed.

Lemma library_keywords_earn_bonus_witness :
  {| id := "r3"; name := "Cardio and Strength Mix" |} ∈ sample_library
  /\ RecommendationService._calculate_rule_based_score
       {| id := "r3"; name := "Cardio and Strength Mix" |}
       (prepare_features_for_ml sample_history sample_library)
     = 8.0%float.
Proof.
  assert (Hin : {| id := "r3"; name := "Cardio and Strength Mix" |} ∈ sample_library)
    by (apply list_elem_of_In; simpl; tauto).
  split; [exact Hin|].
  unfold sample_history.
  rewrite (library_keywords_earn_bonus _ _ sample_library _ Hin).
  reflexivity.
Defined.

(** X4. A user with history whose library has a routine matching a cardio
    keyword is never offered the cardio template, and likewise for
    strength. *)
Theorem covered_type_is_not_suggested
    (self : RecommendationService.t) (uid : string)
    (row0 : WorkoutRow) (rest : list WorkoutRow) (routines_df : list RoutineRow)
    (r : RoutineRow) (word : string) :
  r ∈ routines_df ->
  contains word (lower (name r)) = true ->
  (word ∈ cardio_words ->
   RecommendationService._create_cardio_routine tt
   ∉ RecommendationService._generate_new_routines self uid
       (prepare_features_for_ml (row0 :: rest) routines_df))
  /\ (word ∈ strength_words ->
      RecommendationService._create_strength_routine tt
      ∉ RecommendationService._generate_new_routines self uid
          (prepare_features_for_ml (row0 :: rest) routines_df)).
Proof.
  intros Hr Hword.
  destruct (flags_from_names row0 rest routines_df) as (Hc & Hs).
  unfold RecommendationService._generate_new_routines.
  set (f := prepare_features_for_ml (row0 :: rest) routines_df) in *.
  split; intros Hin.
  - assert (Hflag : has_cardio f = true) by (apply Hc; eauto).
    rewrite Hflag.
    destruct (lt _ _), (gt _ _), (has_strength f); cbn;
      rewrite ?elem_of_cons, ?elem_of_nil; intros H;
      repeat (destruct H as [H|H]; [discriminate H|]); done.
  - assert (Hflag : has_strength f = true) by (apply Hs; eauto).
    rewrite Hflag.
    destruct (lt _ _), (gt _ _), (has_cardio f); cbn;
      rewrite ?elem_of_cons, ?elem_of_nil; intros H;
      repeat (destruct H as [H|H]; [discriminate H|]); done.
Qed.

Lemma covered_type_is_not_suggested_witness :
  {| id := "r3"; name := "Cardio and Strength Mix" |} ∈ sample_library
  /\ contains "cardio" (lower "Cardio and Strength Mix") = true
  /\ RecommendationService._create_cardio_routine tt
     ∉ RecommendationService._generate_new_routines untrained_service "u1"
         (prepare_features_for_ml sample_history sample_library).
Proof.
  assert (Hin : {| id := "r3"; name := "Cardio and Strength Mix" |} ∈ sample_library)
    by (apply list_elem_of_In; simpl; tauto).
  split; [exact Hin|]. split; [reflexivity|].
  unfold sample_history.
  refine (proj1 (covered_type_is_not_suggested untrained_service "u1" _ _
                   sample_library _ "cardio" Hin eq_refl) _).
  apply list_elem_of_In. simpl. tauto.
Defined.

(* ===================================================================== *)
(** ** Further properties: scoring and composition *)
(* ===================================================================== *)

Lemma rule_path_loop_bounds (self : RecommendationService.t) (features : Features)
    (routines : list RoutineRow) :
  RecommendationService.use_ml self = false ->
  exists scored,
    for_each (RecommendationService.recommend_row self features) routines = Ok scored
    /\ Forall (fun rec => 5 <= er_priority rec <= 8) scored.
Proof.
  intros Hml. induction routines as [|row rest (scored & IH & Hall)]; simpl.
  - by exists [].
  - destruct (rule_path_row_total self features row Hml) as (n & Hn & ->).
    rewrite IH. simpl. eexists. split; [reflexivity|]. by constructor.
Qed.

Lemma Forall_take_sort_reverse {A} (key : A -> Z) (P : A -> Prop) (n : nat) (l : list A) :
  Forall P l -> Forall P (take n (sort_reverse key l)).
Proof.
  intros H. apply Forall_take. by rewrite (sort_reverse_perm key l).
Qed.

Lemma rule_path_existing_bounds (self : RecommendationService.t) (uid : string)
    (routines : list RoutineRow) (features : Features) :
  RecommendationService.use_ml self = false ->
  exists recs,
    RecommendationService._recommend_existing_routines self uid routines features = Ok recs
    /\ Forall (fun rec => 5 <= er_priority rec <= 8) recs.
Proof.
  intros Hml. unfold RecommendationService._recommend_existing_routines.
  destruct routines as [|row rest]; [by exists []|].
  destruct (rule_path_loop_bounds self features (row :: rest) Hml) as (scored & -> & Hall).
  eexists. split; [reflexivity|]. by apply Forall_take_sort_reverse.
Qed.

(** X5. With a model that is not in use (untrained, or without a fitted
    classifier) the existing-routine pass cannot fail, and every priority
    it gives lies between 5 and 8. *)
Theorem rule_path_priorities_5_to_8
    (self : RecommendationService.t) (uid : string) (routines : list RoutineRow)
    (features : Features) :
  RecommendationService.use_ml self = false ->
  exists recs,
    RecommendationService._recommend_existing_routines self uid routines features = Ok recs
    /\ Forall (fun rec => 5 <= er_priority rec <= 8) recs.
Proof. apply rule_path_existing_bounds. Qed.

Lemma rule_path_priorities_5_to_8_witness :
  RecommendationService.use_ml untrained_service = false
  /\ exists recs,
       RecommendationService._recommend_existing_routines
         untrained_service "u1" sample_library sample_features = Ok recs
       /\ Forall (fun rec => 5 <= er_priority rec <= 8) recs.
Proof.
  split; [reflexivity|].
  apply (rule_path_priorities_5_to_8 untrained_service "u1" sample_library sample_features).
  reflexivity.
Defined.

(** X6. On the rule path the reasoning is the generic sentence exactly
    when the score is the bare base 5.0: every condition that adds a bonus
    also adds its reason. *)
Theorem generic_reasoning_iff_base_score (row : RoutineRow) (features : Features) :
  RecommendationService._generate_reasoning_for_existing_routine row features false
    = Spec.generic_reasoning
  <-> PrimFloat.eqb (RecommendationService._calculate_rule_based_score row features) 5.0
      = true.
Proof.
  unfold RecommendationService._generate_reasoning_for_existing_routine,
    RecommendationService._calculate_rule_based_score.
  rewrite (andb_comm (contains "cardio" _)), (andb_comm (any_in _ _)).
  destruct (gt _ _), (lt _ _), (has_cardio features && _),
           (has_strength features && _);
    (split; intros H; [try reflexivity|try reflexivity]);
    vm_compute in H; discriminate H.
Qed.

Lemma model_path_row (self : RecommendationService.t) (features : Features)
    (prediction : list float) (row : RoutineRow) :
  RecommendationService.use_ml self = true ->
  SimpleRecommender.predict (RecommendationService.model self) features = Ok prediction ->
  RecommendationService.recommend_row self features row
  = (priority ← RecommendationService.normalize_priority (model_score prediction);
     Ok {| routine_id := id row;
           er_reasoning := Spec.model_reasoning;
           er_priority := priority |}).
Proof.
  intros Hml Hpred.
  unfold RecommendationService.recommend_row, RecommendationService.candidate_score,
    RecommendationService._generate_reasoning_for_existing_routine, model_score.
  by rewrite Hml, Hpred.
Qed.

Lemma normalize_priority_range (score : float) (p : Z) :
  RecommendationService.normalize_priority score = Ok p -> 1 <= p <= 10.
Proof.
  unfold RecommendationService.normalize_priority.
  destruct (Py.int score) as [n|e]; simpl; intros H; [|discriminate].
  injection H as <-. lia.
Qed.

(** X7. When the model is in use and [predict] returns, the score does not
    depend on the routine: every routine receives the same priority, so the
    result is the first five routines of the library, in library order,
    each with that priority and the model's reasoning.  A prediction with
    fewer than two entries counts as 0.5 and gives priority 5. *)
Theorem model_score_ignores_routine
    (self : RecommendationService.t) (uid : string) (routines : list RoutineRow)
    (features : Features) (prediction : list float)
    (recs : list ExistingRoutineRecommendation) :
  RecommendationService.use_ml self = true ->
  SimpleRecommender.predict (RecommendationService.model self) features = Ok prediction ->
  RecommendationService._recommend_existing_routines self uid routines features = Ok recs ->
  exists p,
    1 <= p <= 10
    /\ recs = map (fun row => {| routine_id := id row;
                                 er_reasoning := Spec.model_reasoning;
                                 er_priority := p |})
                  (take 5 routines)
    /\ (routines <> [] ->
        RecommendationService.normalize_priority (model_score prediction) = Ok p)
    /\ ((length prediction < 2)%nat -> routines <> [] -> p = 5).
Proof.
  intros Hml Hpred Hrecs.
  unfold RecommendationService._recommend_existing_routines in Hrecs.
  destruct routines as [|row rest].
  { injection Hrecs as <-. exists 1. repeat split; try lia; done. }
  destruct (RecommendationService.normalize_priority (model_score prediction))
    as [p|e] eqn:Hnorm.
  - exists p. split; [by eapply normalize_priority_range|].
    rewrite (for_each_total _ (fun row => {| routine_id := id row;
                                             er_reasoning := Spec.model_reasoning;
                                             er_priority := p |})) in Hrecs.
    2:{ intros r. rewrite (model_path_row self features prediction r Hml Hpred).
        by rewrite Hnorm. }
    cbn [mbind result_bind bind] in Hrecs.
    rewrite (sort_reverse_constant er_priority p) in Hrecs
      by (apply Forall_forall; intros r [r' [<- _]]%list_elem_of_In%in_map_iff; done).
    rewrite firstn_map in Hrecs. injection Hrecs as <-.
    split; [done|]. split; [done|].
    intros Hlen _. unfold model_score in Hnorm.
    destruct prediction as [|p0 [|p1 rest']]; simpl in Hlen; try lia;
      vm_compute in Hnorm; by injection Hnorm as <-.
  - cbn [for_each] in Hrecs.
    rewrite (model_path_row self features prediction row Hml Hpred), Hnorm in Hrecs.
    discriminate Hrecs.
Qed.

Lemma model_score_ignores_routine_witness :
  RecommendationService.use_ml working_service = true
  /\ SimpleRecommender.predict working_model sample_features
     = Ok [0.25%float; 0.75%float]
  /\ RecommendationService._recommend_existing_routines
       working_service "u1" sample_library sample_features
     = Ok (map (fun row => {| routine_id := id row;
                              er_reasoning := Spec.model_reasoning;
                              er_priority := 7 |})
               (take 5 sample_library)).
Proof.
  split; [reflexivity|]. split; [reflexivity|].
  destruct (RecommendationService._recommend_existing_routines
              working_service "u1" sample_library sample_features) as [recs|e] eqn:Hrecs;
    [|vm_compute in Hrecs; discriminate Hrecs].
  destruct (model_score_ignores_routine working_service "u1" sample_library
              sample_features [0.25%float; 0.75%float] recs eq_refl eq_refl Hrecs)
    as (p & _ & -> & Hp & _).
  assert (Hp7 : p = 7).
  { specialize (Hp ltac:(discriminate)). vm_compute in Hp. by injection Hp as <-. }
  by rewrite Hp7.
Defined.

(** X8. A probability that is not a number is not clamped.  When the model
    is in use, the library is not empty and the "liked" probability is NaN,
    [int] raises ValueError outside the [try] block and the handler answers
    400; when it is infinite, [int] raises OverflowError and the handler
    answers 500. *)
Theorem non_finite_probability_is_an_error
    (service : RecommendationService.t) (db : Database) (request : Main.RecommendationRequest)
    (workouts : list WorkoutRow) (row : RoutineRow) (rest : list RoutineRow)
    (p_not_liked p_liked : float) (others : list float) :
  workout_rows db (Main.user_id request) = Ok workouts ->
  routine_rows db (Main.user_id request) = Ok (row :: rest) ->
  RecommendationService.use_ml service = true ->
  SimpleRecommender.predict (RecommendationService.model service)
    (prepare_features_for_ml workouts (row :: rest))
    = Ok (p_not_liked :: p_liked :: others) ->
  (PrimFloat.is_nan p_liked = true ->
   Main.get_recommendations (Some service) db request
   = Main.HTTPException 400 "cannot convert float NaN to integer")
  /\ (forall s, Prim2SF p_liked = S754_infinity s ->
      Main.get_recommendations (Some service) db request
      = Main.HTTPException 500
          "Failed to generate recommendations: cannot convert float infinity to integer").
Proof.
  intros Hw Hr Hml Hpred.
  assert (Hgen : forall e,
            Py.int (p_liked * 10) = Raise e ->
            RecommendationService.generate_recommendations service db (Main.user_id request)
            = Raise e).
  { intros e He.
    unfold RecommendationService.generate_recommendations,
      fetch_user_workout_data, fetch_user_routines.
    rewrite Hw, Hr. cbn [mbind result_bind bind].
    replace (match workouts with [] => Ok [] | _ :: _ => Ok workouts end)
      with (Ok workouts) by (by destruct workouts).
    cbn [mbind result_bind bind].
    rewrite (bool_decide_eq_false_2 (row :: rest = [])) by done.
    rewrite andb_false_r.
    unfold RecommendationService._recommend_existing_routines. cbn [for_each].
    rewrite (model_path_row service _ _ row Hml Hpred).
    unfold RecommendationService.normalize_priority, model_score.
    by rewrite He. }
  unfold Main.get_recommendations. split.
  - intros Hnan. by rewrite (Hgen _ (int_times_10_nan _ Hnan)).
  - intros s Hinf. by rewrite (Hgen _ (int_times_10_infinity _ _ Hinf)).
Qed.

Lemma non_finite_probability_is_an_error_witness :
  RecommendationService.use_ml nan_service = true
  /\ PrimFloat.is_nan PrimFloat.nan = true
  /\ Main.get_recommendations (Some nan_service) sample_database {| Main.user_id := "u1" |}
     = Main.HTTPException 400 "cannot convert float NaN to integer".
Proof.
  split; [reflexivity|]. split; [reflexivity|].
  apply (non_finite_probability_is_an_error nan_service sample_database
           {| Main.user_id := "u1" |} sample_history
           {| id := "r1"; name := "Morning Mobility" |} (tl sample_library)
           PrimFloat.nan PrimFloat.nan []);
    reflexivity.
Defined.

Lemma existing_fields_ok_from_loop (self : RecommendationService.t) (uid : string)
    (routines : list RoutineRow) (features : Features)
    (recs : list ExistingRoutineRecommendation) :
  RecommendationService._recommend_existing_routines self uid routines features = Ok recs ->
  forallb existing_fields_ok recs = true /\ (length recs <= 5)%nat.
Proof.
  intros H. apply recommend_existing_inv in H as (scored & Hloop & ->).
  apply for_each_Ok_Forall2 in Hloop.
  split; [|rewrite length_take; lia].
  apply forallb_forall. intros rec Hin.
  apply list_elem_of_In, (subseteq_take 5) in Hin.
  rewrite sort_reverse_perm in Hin.
  apply list_elem_of_lookup in Hin as [i Hi].
  destruct (Forall2_lookup_r _ _ _ _ _ Hloop Hi) as (row & _ & Hbody).
  apply recommend_row_inv in Hbody as (z & _ & ->).
  unfold existing_fields_ok. simpl. apply andb_true_iff.
  split; apply Z.leb_le; lia.
Qed.

Lemma new_routines_fields_ok (self : RecommendationService.t) (uid : string)
    (features : Features) :
  forallb new_fields_ok (RecommendationService._generate_new_routines self uid features)
    = true
  /\ (1 <= length (RecommendationService._generate_new_routines self uid features) <= 3)%nat.
Proof.
  unfold RecommendationService._generate_new_routines.
  destruct (lt _ _), (gt _ _), (has_cardio features), (has_strength features);
    (split; [reflexivity|simpl; lia]).
Qed.

(** X9. Every response that [generate_recommendations] returns satisfies
    the constraints of the response schema: priorities within 1..10,
    durations, sets and reps at least 1, four to eight exercises per new
    routine; it holds at most five existing and between one and three new
    recommendations. *)
Theorem response_satisfies_schema
    (self : RecommendationService.t) (db : Database) (uid : string)
    (response : RecommendationResponse) :
  RecommendationService.generate_recommendations self db uid = Ok response ->
  forallb existing_fields_ok (existing_routines response) = true
  /\ forallb new_fields_ok (new_routines response) = true
  /\ (length (existing_routines response) <= 5)%nat
  /\ (1 <= length (new_routines response) <= 3)%nat.
Proof.
  unfold RecommendationService.generate_recommendations.
  destruct (fetch_user_workout_data db uid) as [workouts|e]; [|discriminate].
  destruct (fetch_user_routines db uid) as [routines|e]; [|discriminate].
  cbn [mbind result_bind bind].
  destruct (bool_decide (workouts = []) && bool_decide (routines = [])).
  { intros H. injection H as <-. simpl. repeat split; lia. }
  destruct (RecommendationService._recommend_existing_routines _ _ _ _)
    as [existing|e] eqn:Hex; [|discriminate].
  cbn [mbind result_bind bind]. intros H. injection H as <-.
  cbn [existing_routines new_routines].
  destruct (existing_fields_ok_from_loop _ _ _ _ _ Hex) as [Hok Hlen].
  destruct (new_routines_fields_ok self uid (prepare_features_for_ml workouts routines))
    as [Hnew Hnlen].
  done.
Qed.

Lemma response_satisfies_schema_witness :
  exists response,
    RecommendationService.generate_recommendations untrained_service sample_database "u1"
      = Ok response
    /\ forallb existing_fields_ok (existing_routines response) = true
    /\ forallb new_fields_ok (new_routines response) = true
    /\ (length (existing_routines response) <= 5)%nat
    /\ (1 <= length (new_routines response) <= 3)%nat.
Proof.
  destruct (RecommendationService.generate_recommendations
              untrained_service sample_database "u1") as [response|e] eqn:Hgen;
    [|vm_compute in Hgen; discriminate Hgen].
  exists response. split; [reflexivity|].
  exact (response_satisfies_schema untrained_service sample_database "u1" response Hgen).
Defined.

(** X10. The new-routine list is never empty, its priorities never
    increase along the list (the generation order is already the priority
    order), and the balanced template is in it exactly when no weakness
    was found, in which case it is the whole list. *)
Theorem new_routines_shape
    (self : RecommendationService.t) (uid : string) (features : Features) :
  let new := RecommendationService._generate_new_routines self uid features in
  new <> []
  /\ StronglySorted (fun a b => nr_priority b <= nr_priority a) new
  /\ (RecommendationService._create_balanced_routine tt ∈ new
      <-> lt (completion_rate features) 0.5 = false
          /\ gt (avg_time_delta features) 120 = false
          /\ has_cardio features = true
          /\ has_strength features = true)
  /\ (RecommendationService._create_balanced_routine tt ∈ new
      -> new = [RecommendationService._create_balanced_routine tt]).
Proof.
  unfold RecommendationService._generate_new_routines.
  destruct (lt _ _), (gt _ _), (has_cardio features), (has_strength features);
    cbn zeta; cbn [negb app take firstn];
    (split; [discriminate|]);
    (split; [repeat constructor; simpl; lia|]);
    (split; [split; [rewrite ?elem_of_cons, ?elem_of_nil; intros H;
                     repeat (destruct H as [H|H]; [discriminate H|]);
                     try done
                    |intros (? & ? & ? & ?); try discriminate;
                     apply list_elem_of_here]
            |rewrite ?elem_of_cons, ?elem_of_nil; intros H;
             repeat (destruct H as [H|H]; [discriminate H|]); try done]).
Qed.

(** X11. Truncation to three can only cost the strength template: the
    quick, time-efficient and cardio templates are in the result exactly
    when their weakness holds, while the strength template needs its
    weakness and at most two of the other three. *)
Theorem only_strength_is_truncated
    (self : RecommendationService.t) (uid : string) (features : Features) :
  let new := RecommendationService._generate_new_routines self uid features in
  (RecommendationService._create_quick_workout_routine tt ∈ new
   <-> lt (completion_rate features) 0.5 = true)
  /\ (RecommendationService._create_time_efficient_routine tt ∈ new
      <-> gt (avg_time_delta features) 120 = true)
  /\ (RecommendationService._create_cardio_routine tt ∈ new
      <-> has_cardio features = false)
  /\ (RecommendationService._create_strength_routine tt ∈ new
      <-> has_strength features = false
          /\ ~ (lt (completion_rate features) 0.5 = true
                /\ gt (avg_time_delta features) 120 = true
                /\ has_cardio features = false)).
Proof.
  unfold RecommendationService._generate_new_routines.
  destruct (lt _ _), (gt _ _), (has_cardio features), (has_strength features);
    cbn zeta; cbn [negb app take firstn];
    (split; [settle_member_iff|]);
    (split; [settle_member_iff|]);
    (split; settle_member_iff).
Qed.

(** X12. The data store is asked for the workout history first and the
    routine library second; the first exception ends the request without
    retry and without consulting the model.  The handler turns a ValueError
    into 400 with the exception's message and anything else into 500. *)
Theorem data_store_errors_surface
    (service : RecommendationService.t) (db : Database) (request : Main.RecommendationRequest)
    (e : exn) :
  workout_rows db (Main.user_id request) = Raise e
  \/ (exists workouts, workout_rows db (Main.user_id request) = Ok workouts)
     /\ routine_rows db (Main.user_id request) = Raise e ->
  RecommendationService.generate_recommendations service db (Main.user_id request) = Raise e
  /\ Main.get_recommendations (Some service) db request
     = (if is_ValueError e
        then Main.HTTPException 400 (str_of_exn e)
        else Main.HTTPException 500
               ("Failed to generate recommendations: " +:+ str_of_exn e)).
Proof.
  intros H.
  assert (Hgen : RecommendationService.generate_recommendations service db
                   (Main.user_id request) = Raise e).
  { unfold RecommendationService.generate_recommendations,
      fetch_user_workout_data, fetch_user_routines.
    destruct H as [-> | [[workouts ->] ->]]; [done|].
    by destruct workouts. }
  split; [done|].
  unfold Main.get_recommendations. rewrite Hgen. by destruct e.
Qed.

Lemma data_store_errors_surface_witness :
  ((exists workouts, workout_rows failing_database "u1" = Ok workouts)
   /\ routine_rows failing_database "u1" = Raise (OtherException "connection refused"))
  /\ Main.get_recommendations (Some untrained_service) failing_database
       {| Main.user_id := "u1" |}
     = Main.HTTPException 500 "Failed to generate recommendations: connection refused".
Proof.
  assert (H : (exists workouts, workout_rows failing_database "u1" = Ok workouts)
              /\ routine_rows failing_database "u1"
                 = Raise (OtherException "connection refused"))
    by (split; [by eexists|reflexivity]).
  split; [exact H|].
  exact (proj2 (data_store_errors_surface untrained_service failing_database
                  {| Main.user_id := "u1" |} _ (or_intror H))).
Defined.

(* ===================================================================== *)
(** ** Further properties: the model's life cycle *)
(* ===================================================================== *)

Lemma load_stored
    (filepath : string) (self other : SimpleRecommender.t)
    (fs : SimpleRecommender.FileSystem) :
  SimpleRecommender.is_trained self = true ->
  SimpleRecommender.files fs !! filepath
  = Some {| SimpleRecommender.a_model := SimpleRecommender.model self;
            SimpleRecommender.a_scaler := SimpleRecommender.scaler self;
            SimpleRecommender.a_is_trained := Some true |} ->
  SimpleRecommender.load filepath (other, fs) = (Ok tt, (self, fs)).
Proof.
  intros Htrained Hstored. unfold SimpleRecommender.load. rewrite Hstored. cbn.
  destruct self as [m sc tr]. simpl in Htrained. by subst tr.
Qed.

(** X13. Round trip: whenever [save] of a model under a path returns,
    [load] of that path into any model object succeeds and makes it the
    saved model, so that [predict] answers as before for every input. *)
Theorem save_load_round_trip
    (filepath : string) (self self' other : SimpleRecommender.t)
    (fs fs' : SimpleRecommender.FileSystem) :
  SimpleRecommender.save filepath (self, fs) = (Ok tt, (self', fs')) ->
  self' = self
  /\ SimpleRecommender.load filepath (other, fs') = (Ok tt, (self, fs'))
  /\ forall user_features,
       SimpleRecommender.predict
         (fst (snd (SimpleRecommender.load filepath (other, fs')))) user_features
       = SimpleRecommender.predict self user_features.
Proof.
  intros (Htrained & -> & Hfiles)%save_Ok_inv.
  assert (Hload : SimpleRecommender.load filepath (other, fs') = (Ok tt, (self, fs'))).
  { apply load_stored; [done|]. rewrite Hfiles. apply lookup_insert_eq. }
  split; [done|]. split; [done|].
  intros user_features. by rewrite Hload.
Qed.

Lemma save_load_round_trip_witness :
  SimpleRecommender.save "models/recommendation_model.pkl" (working_model, empty_fs)
  = (Ok tt, (working_model, saved_fs))
  /\ SimpleRecommender.load "models/recommendation_model.pkl"
       (SimpleRecommender.init, saved_fs)
     = (Ok tt, (working_model, saved_fs)).
Proof.
  assert (Hsave : SimpleRecommender.save "models/recommendation_model.pkl"
                    (working_model, empty_fs)
                  = (Ok tt, (working_model, saved_fs)))
    by (vm_compute; reflexivity).
  split; [exact Hsave|].
  exact (proj1 (proj2 (save_load_round_trip "models/recommendation_model.pkl"
                         working_model working_model SimpleRecommender.init
                         empty_fs saved_fs Hsave))).
Defined.

Lemma train_state_machine_core
    (sk : SimpleRecommender.Sklearn) (workout_data : SimpleRecommender.TrainingData)
    (self : SimpleRecommender.t) :
  SimpleRecommender.t_rows workout_data <> [] ->
  fst (SimpleRecommender.train sk workout_data self) = Ok tt ->
  SimpleRecommender.is_trained (snd (SimpleRecommender.train sk workout_data self)) = true
  /\ is_Some (SimpleRecommender.model (snd (SimpleRecommender.train sk workout_data self))).
Proof.
  unfold SimpleRecommender.train.
  destruct (SimpleRecommender.t_rows workout_data) as [|row rest]; [done|].
  destruct (SimpleRecommender.fit_transform sk _ _) as [scaler' [X_scaled|e]];
    [|discriminate].
  destruct (SimpleRecommender.fit sk _ _ _) as [forest [[]|e]]; [|discriminate].
  cbn. by eauto.
Qed.

(** X15. [train] as a state machine.  An empty training frame changes
    nothing.  With rows, a run that returns has set [is_trained] and holds
    a classifier; a run that raises leaves [is_trained] as it was.  In no
    case does [train] turn a trained model into an untrained one. *)
Theorem train_state_machine
    (sk : SimpleRecommender.Sklearn) (workout_data : SimpleRecommender.TrainingData)
    (self : SimpleRecommender.t) :
  let outcome := fst (SimpleRecommender.train sk workout_data self) in
  let self' := snd (SimpleRecommender.train sk workout_data self) in
  (SimpleRecommender.t_rows workout_data = [] -> outcome = Ok tt /\ self' = self)
  /\ (SimpleRecommender.t_rows workout_data <> [] ->
      outcome = Ok tt ->
      SimpleRecommender.is_trained self' = true
      /\ is_Some (SimpleRecommender.model self'))
  /\ (forall e, outcome = Raise e ->
      SimpleRecommender.is_trained self' = SimpleRecommender.is_trained self)
  /\ (SimpleRecommender.is_trained self = true ->
      SimpleRecommender.is_trained self' = true).
Proof.
  unfold SimpleRecommender.train.
  destruct (SimpleRecommender.t_rows workout_data) as [|row rest] eqn:Hrows.
  { cbn. repeat split; try done. }
  destruct (SimpleRecommender.fit_transform sk _ _) as [scaler' [X_scaled|e]].
  - destruct (SimpleRecommender.fit sk _ _ _) as [forest [[]|e]]; cbn;
      repeat split; try done; by eauto.
  - cbn. repeat split; try done.
Qed.

Lemma train_state_machine_witness :
  SimpleRecommender.t_rows sample_training_data <> []
  /\ fst (SimpleRecommender.train sample_sklearn sample_training_data SimpleRecommender.init)
     = Ok tt
  /\ SimpleRecommender.is_trained
       (snd (SimpleRecommender.train sample_sklearn sample_training_data
               SimpleRecommender.init)) = true
  /\ (exists e,
        fst (SimpleRecommender.train failing_sklearn sample_training_data
               SimpleRecommender.init) = Raise e)
  /\ SimpleRecommender.is_trained
       (snd (SimpleRecommender.train failing_sklearn sample_training_data
               SimpleRecommender.init)) = false.
Proof.
  assert (Hne : SimpleRecommender.t_rows sample_training_data <> []) by discriminate.
  split; [exact Hne|]. split; [reflexivity|].
  destruct (train_state_machine sample_sklearn sample_training_data SimpleRecommender.init)
    as (_ & Hok & _ & _).
  split; [exact (proj1 (Hok Hne eq_refl))|].
  split; [eexists; reflexivity|].
  destruct (train_state_machine failing_sklearn sample_training_data SimpleRecommender.init)
    as (_ & _ & Hraise & _).
  exact (Hraise _ eq_refl).
Defined.

Lemma training_row_inv (df : list TrainModel.RawRow) (row : TrainModel.RawRow)
    (t : SimpleRecommender.TrainingRow) :
  TrainModel.training_row df row = Some t ->
  SimpleRecommender.t_user_id t = TrainModel.userId row
  /\ SimpleRecommender.t_routine_id t = TrainModel.routineId row
  /\ SimpleRecommender.t_user_preference t = TrainModel.user_preference df row
  /\ notna (SimpleRecommender.t_completion_rate t) = true
  /\ notna (SimpleRecommender.t_avg_time_delta t) = true.
Proof.
  unfold TrainModel.training_row, present, cell.
  destruct (TrainModel.r_completion_rate row) as [cr|]; [|discriminate].
  destruct (TrainModel.r_avg_time_delta row) as [td|]; [|by rewrite andb_false_r].
  destruct (notna cr) eqn:Hcr, (notna td) eqn:Htd; try discriminate.
  intros H. injection H as <-. by cbn.
Qed.

Lemma omap_length_le {A B} (f : A -> option B) (l : list A) :
  (length (omap f l) <= length l)%nat.
Proof.
  induction l as [|x xs IH]; [done|].
  csimpl. destruct (f x); csimpl; lia.
Qed.

(** X16. The training set built by [prepare_training_data] has at most as
    many rows as the query returned, no missing aggregate, and labels 0
    or 1.  A row is labelled 1 ("liked") only if its workout was completed,
    took less than 120 seconds more than estimated, and its user did that
    routine at least twice: a routine done once is never "liked". *)
Theorem training_labels
    (df : list TrainModel.RawRow) (t : SimpleRecommender.TrainingRow) :
  t ∈ SimpleRecommender.t_rows (TrainModel.prepare_training_data df) ->
  (length (SimpleRecommender.t_rows (TrainModel.prepare_training_data df))
     <= length df)%nat
  /\ notna (SimpleRecommender.t_completion_rate t) = true
  /\ notna (SimpleRecommender.t_avg_time_delta t) = true
  /\ (SimpleRecommender.t_user_preference t = 0
      \/ SimpleRecommender.t_user_preference t = 1)
  /\ (SimpleRecommender.t_user_preference t = 1 ->
      exists row,
        row ∈ df
        /\ TrainModel.userId row = SimpleRecommender.t_user_id t
        /\ TrainModel.routineId row = SimpleRecommender.t_routine_id t
        /\ TrainModel.r_completed row = Some true
        /\ lt (TrainModel.time_delta row) 120 = true
        /\ (2 <= length (filter (fun other =>
                                   TrainModel.userId other = SimpleRecommender.t_user_id t
                                   /\ TrainModel.routineId other
                                      = SimpleRecommender.t_routine_id t) df))%nat).
Proof.
  cbn [TrainModel.prepare_training_data SimpleRecommender.t_rows].
  intros Hin. split; [apply omap_length_le|].
  apply list_elem_of_omap in Hin as (row & Hrow & Ht).
  apply training_row_inv in Ht as (Hu & Hr & Hp & Hcr & Htd).
  split; [done|]. split; [done|].
  rewrite Hp, Hu, Hr. unfold TrainModel.user_preference.
  split; [destruct (_ && _ && _); tauto|].
  destruct (bool_decide (TrainModel.r_completed row = Some true)) eqn:Hc;
    [|discriminate].
  destruct (lt (TrainModel.time_delta row) 120) eqn:Hd; [|discriminate].
  destruct (2 <=? TrainModel.routine_frequency df row)%nat eqn:Hf; [|discriminate].
  intros _. exists row. apply bool_decide_eq_true in Hc.
  apply Nat.leb_le in Hf. done.
Qed.

Lemma training_labels_witness :
  let t := {| SimpleRecommender.t_user_id := "u1";
              SimpleRecommender.t_routine_id := "r1";
              SimpleRecommender.t_completion_rate := 1;
              SimpleRecommender.t_avg_time_delta := -40;
              SimpleRecommender.t_routine_type_encoded := 0;
              SimpleRecommender.t_user_preference := 1 |} in
  t ∈ SimpleRecommender.t_rows (TrainModel.prepare_training_data sample_raw_rows)
  /\ (SimpleRecommender.t_user_preference t = 0
      \/ SimpleRecommender.t_user_preference t = 1).
Proof.
  intros t.
  assert (Hin : t ∈ SimpleRecommender.t_rows
                      (TrainModel.prepare_training_data sample_raw_rows))
    by apply list_elem_of_here.
  split; [exact Hin|].
  exact (proj1 (proj2 (proj2 (proj2 (training_labels sample_raw_rows t Hin))))).
Defined.

Lemma remove_dups_constant (k : Z) (l : list Z) :
  Forall (fun x => x = k) l -> (length (remove_dups l) <= 1)%nat.
Proof.
  induction 1 as [|x xs -> Hxs IH]; simpl; [lia|].
  destruct xs as [|y ys]; [simpl; lia|].
  destruct (decide_rel elem_of k (y :: ys)) as [_|Hnot]; [done|].
  exfalso. apply Hnot.
  apply Forall_cons in Hxs as [-> _]. apply list_elem_of_here.
Qed.

(** X17. [train_model] trains and saves only when the labels contain both
    classes.  With an empty training set, or one whose labels are all
    equal, it returns [None] and leaves the file system as it was: no
    model artifact appears. *)
Theorem train_model_needs_both_classes
    (sk : SimpleRecommender.Sklearn) (training_df : SimpleRecommender.TrainingData)
    (model_path : string) (fs : SimpleRecommender.FileSystem) (label : Z) :
  Forall (fun t => SimpleRecommender.t_user_preference t = label)
         (SimpleRecommender.t_rows training_df) ->
  TrainModel.train_model sk training_df model_path fs = (Ok None, fs).
Proof.
  intros Hall. unfold TrainModel.train_model.
  destruct (SimpleRecommender.t_rows training_df) as [|row rest] eqn:Hrows; [done|].
  assert (Hn : (TrainModel.nunique training_df <? 2)%nat = true).
  { apply Nat.ltb_lt. unfold TrainModel.nunique. rewrite Hrows.
    pose proof (remove_dups_constant label
                  (map SimpleRecommender.t_user_preference (row :: rest))) as Hd.
    enough ((length (remove_dups
                       (map SimpleRecommender.t_user_preference (row :: rest))) <= 1)%nat)
      by lia.
    apply Hd. apply Forall_forall. intros x Hx.
    apply list_elem_of_In, in_map_iff in Hx as (t & <- & Ht).
    apply list_elem_of_In in Ht.
    exact (proj1 (Forall_forall _ _) Hall t Ht). }
  by rewrite Hn.
Qed.

Lemma train_model_needs_both_classes_witness :
  Forall (fun t => SimpleRecommender.t_user_preference t = 0)
         (SimpleRecommender.t_rows single_class_training_data)
  /\ TrainModel.train_model sample_sklearn single_class_training_data
       "models/recommendation_model.pkl" empty_fs = (Ok None, empty_fs).
Proof.
  assert (H : Forall (fun t => SimpleRecommender.t_user_preference t = 0)
                     (SimpleRecommender.t_rows single_class_training_data))
    by (repeat constructor).
  split; [exact H|].
  exact (train_model_needs_both_classes sample_sklearn single_class_training_data
           "models/recommendation_model.pkl" empty_fs 0 H).
Defined.

Lemma init_stored (model_path : string) (m : SimpleRecommender.t)
    (fs : SimpleRecommender.FileSystem) :
  SimpleRecommender.is_trained m = true ->
  SimpleRecommender.files fs !! model_path
  = Some {| SimpleRecommender.a_model := SimpleRecommender.model m;
            SimpleRecommender.a_scaler := SimpleRecommender.scaler m;
            SimpleRecommender.a_is_trained := Some true |} ->
  RecommendationService.init model_path fs = {| RecommendationService.model := m |}.
Proof.
  intros Htrained Hstored. unfold RecommendationService.init.
  replace (RecommendationService.path_exists model_path fs) with true.
  2:{ symmetry. unfold RecommendationService.path_exists. apply orb_true_iff. right.
      apply bool_decide_eq_true. rewrite Hstored. by eexists. }
  by rewrite (load_stored model_path m SimpleRecommender.init fs Htrained Hstored).
Qed.

Lemma model_branch_row (self : RecommendationService.t) (features : Features)
    (row : RoutineRow) :
  RecommendationService.use_ml self = true ->
  RecommendationService.recommend_row self features row
  = (priority ← RecommendationService.normalize_priority
                  (match SimpleRecommender.predict (RecommendationService.model self)
                           features with
                   | Ok prediction => model_score prediction
                   | Raise _ =>
                       RecommendationService._calculate_rule_based_score row features
                   end);
     Ok {| routine_id := id row;
           er_reasoning := Spec.model_reasoning;
           er_priority := priority |}).
Proof.
  intros Hml.
  unfold RecommendationService.recommend_row, RecommendationService.candidate_score,
    RecommendationService._generate_reasoning_for_existing_routine, model_score.
  rewrite Hml.
  by destruct (SimpleRecommender.predict _ _).
Qed.

(** X18. From training to serving.  When [train_model] returns a model,
    that model is trained, its artifact is in the file system under
    [model_path], and a service started on that file system with the same
    path holds exactly that model and takes the model branch: a routine is
    scored with ten times the predicted probability when [predict]
    returns and by the rules when [predict] raises, and in both cases its
    reasoning is the model sentence. *)
Theorem trained_model_is_served
    (sk : SimpleRecommender.Sklearn) (training_df : SimpleRecommender.TrainingData)
    (model_path : string) (fs fs' : SimpleRecommender.FileSystem)
    (m : SimpleRecommender.t) :
  TrainModel.train_model sk training_df model_path fs = (Ok (Some m), fs') ->
  SimpleRecommender.is_trained m = true
  /\ SimpleRecommender.files fs' !! model_path
     = Some {| SimpleRecommender.a_model := SimpleRecommender.model m;
               SimpleRecommender.a_scaler := SimpleRecommender.scaler m;
               SimpleRecommender.a_is_trained := Some true |}
  /\ RecommendationService.init model_path fs' = {| RecommendationService.model := m |}
  /\ RecommendationService.use_ml (RecommendationService.init model_path fs') = true
  /\ forall features row,
       RecommendationService.recommend_row
         (RecommendationService.init model_path fs') features row
       = (priority ← RecommendationService.normalize_priority
                       (match SimpleRecommender.predict m features with
                        | Ok prediction => model_score prediction
                        | Raise _ =>
                            RecommendationService._calculate_rule_based_score
                              row features
                        end);
          Ok {| routine_id := id row;
                er_reasoning := Spec.model_reasoning;
                er_priority := priority |}).
Proof.
  unfold TrainModel.train_model.
  destruct (SimpleRecommender.t_rows training_df) as [|row0 rest] eqn:Hrows;
    [discriminate|].
  destruct (TrainModel.nunique training_df <? 2)%nat; [discriminate|].
  pose proof (train_state_machine_core sk training_df SimpleRecommender.init) as Htrain.
  destruct (SimpleRecommender.train sk training_df SimpleRecommender.init)
    as [[[]|e] m'] eqn:Htr; [|discriminate].
  destruct Htrain as [Htrained Hmodel]; [by rewrite Hrows|done|]. cbn in Htrained, Hmodel.
  destruct (SimpleRecommender.makedirs _ fs) as [[u|e] fs1]; [|discriminate].
  destruct (SimpleRecommender.save model_path (m', fs1)) as [[[]|e] [m'' fs2]] eqn:Hsave;
    [|discriminate].
  intros H. injection H as <- <-.
  apply save_Ok_inv in Hsave as (_ & -> & Hfiles).
  assert (Hstored : SimpleRecommender.files fs2 !! model_path
                    = Some {| SimpleRecommender.a_model := SimpleRecommender.model m';
                              SimpleRecommender.a_scaler := SimpleRecommender.scaler m';
                              SimpleRecommender.a_is_trained := Some true |})
    by (rewrite Hfiles; apply lookup_insert_eq).
  assert (Hml : RecommendationService.use_ml {| RecommendationService.model := m' |}
                = true).
  { unfold RecommendationService.use_ml. cbn. rewrite Htrained.
    by apply bool_decide_eq_true. }
  split; [done|]. split; [done|].
  rewrite (init_stored model_path m' fs2 Htrained Hstored).
  split; [done|]. split; [done|].
  intros features row. by rewrite (model_branch_row _ features row Hml).
Qed.

Lemma trained_model_is_served_witness :
  exists m fs',
    TrainModel.train_model sample_sklearn sample_training_data
      "models/recommendation_model.pkl" empty_fs = (Ok (Some m), fs')
    /\ RecommendationService.use_ml
         (RecommendationService.init "models/recommendation_model.pkl" fs') = true.
Proof.
  destruct (TrainModel.train_model sample_sklearn sample_training_data
              "models/recommendation_model.pkl" empty_fs) as [[[m|]|e] fs'] eqn:Hrun;
    try (vm_compute in Hrun; discriminate Hrun).
  exists m, fs'. split; [reflexivity|].
  exact (proj1 (proj2 (proj2 (proj2 (trained_model_is_served _ _ _ _ _ _ Hrun))))).
Defined.

Lemma rule_path_response
    (service : RecommendationService.t) (db : Database) (uid : string)
    (workouts : list WorkoutRow) (routines : list RoutineRow) :
  RecommendationService.use_ml service = false ->
  workout_rows db uid = Ok workouts ->
  routine_rows db uid = Ok routines ->
  exists body,
    RecommendationService.generate_recommendations service db uid = Ok body
    /\ Forall (fun rec => 5 <= er_priority rec <= 8) (existing_routines body).
Proof.
  intros Hml Hw Hr.
  unfold RecommendationService.generate_recommendations,
    fetch_user_workout_data, fetch_user_routines.
  rewrite Hw, Hr. cbn [mbind result_bind bind].
  replace (match workouts with [] => Ok [] | _ :: _ => Ok workouts end)
    with (Ok workouts) by (by destruct workouts).
  replace (match routines with [] => Ok [] | _ :: _ => Ok routines end)
    with (Ok routines) by (by destruct routines).
  cbn [mbind result_bind bind].
  destruct (bool_decide (workouts = []) && bool_decide (routines = []));
    [eexists; split; [reflexivity|constructor]|].
  destruct (rule_path_existing_bounds service uid routines
              (prepare_features_for_ml workouts routines) Hml) as (recs & -> & Hall).
  eexists. split; [reflexivity|done].
Qed.

Lemma init_without_artifact (model_path : string) (fs : SimpleRecommender.FileSystem) :
  SimpleRecommender.files fs !! model_path = None ->
  RecommendationService.init model_path fs
  = {| RecommendationService.model := SimpleRecommender.init |}.
Proof.
  intros Hnone. unfold RecommendationService.init, SimpleRecommender.load.
  rewrite Hnone.
  destruct (RecommendationService.path_exists model_path fs); [|done].
  by destruct (bool_decide (model_path ∈ SimpleRecommender.dirs fs)).
Qed.

(** X19. A service started where no model artifact lies under the model
    path (the path may even be a directory) starts all the same, with the
    untrained model: it scores by the rules, and for every user whose two
    queries are answered the handler returns a normal response with
    existing priorities between 5 and 8. *)
Theorem service_without_artifact_uses_rules
    (model_path : string) (fs : SimpleRecommender.FileSystem)
    (db : Database) (request : Main.RecommendationRequest)
    (workouts : list WorkoutRow) (routines : list RoutineRow) :
  SimpleRecommender.files fs !! model_path = None ->
  workout_rows db (Main.user_id request) = Ok workouts ->
  routine_rows db (Main.user_id request) = Ok routines ->
  RecommendationService.use_ml (RecommendationService.init model_path fs) = false
  /\ exists body,
       Main.get_recommendations (Some (RecommendationService.init model_path fs)) db request
         = Main.Response body
       /\ Forall (fun rec => 5 <= er_priority rec <= 8) (existing_routines body).
Proof.
  intros Hnone Hw Hr. rewrite init_without_artifact by done.
  split; [reflexivity|].
  destruct (rule_path_response {| RecommendationService.model := SimpleRecommender.init |}
              db (Main.user_id request) workouts routines eq_refl Hw Hr)
    as (body & Hgen & Hall).
  exists body. split; [|done].
  unfold Main.get_recommendations. by rewrite Hgen.
Qed.

Lemma service_without_artifact_uses_rules_witness :
  SimpleRecommender.files legacy_fs !! "models/recommendation_model.pkl" = None
  /\ RecommendationService.use_ml
       (RecommendationService.init "models/recommendation_model.pkl" legacy_fs) = false.
Proof.
  split; [reflexivity|].
  exact (proj1 (service_without_artifact_uses_rules
                  "models/recommendation_model.pkl" legacy_fs sample_database
                  {| Main.user_id := "u1" |} sample_history sample_library
                  eq_refl eq_refl eq_refl)).
Defined.

(** X20. What lies under the model path decides how a service scores: with
    an artifact there, the model is used exactly when the artifact holds a
    classifier and its stored flag is true or absent (an artifact without
    the flag counts as trained). *)
Theorem artifact_decides_scoring_mode
    (model_path : string) (fs : SimpleRecommender.FileSystem)
    (data : SimpleRecommender.Artifact) :
  SimpleRecommender.files fs !! model_path = Some data ->
  RecommendationService.use_ml (RecommendationService.init model_path fs)
  = default true (SimpleRecommender.a_is_trained data)
    && bool_decide (is_Some (SimpleRecommender.a_model data)).
Proof.
  intros Hdata. unfold RecommendationService.init, SimpleRecommender.load.
  replace (RecommendationService.path_exists model_path fs) with true.
  2:{ symmetry. unfold RecommendationService.path_exists. apply orb_true_iff. right.
      apply bool_decide_eq_true. rewrite Hdata. by eexists. }
  by rewrite Hdata.
Qed.

Lemma artifact_decides_scoring_mode_witness :
  SimpleRecommender.files legacy_fs !! "old/model.pkl"
  = Some {| SimpleRecommender.a_model := SimpleRecommender.model trained_model;
            SimpleRecommender.a_scaler := SimpleRecommender.scaler trained_model;
            SimpleRecommender.a_is_trained := None |}
  /\ RecommendationService.use_ml (RecommendationService.init "old/model.pkl" legacy_fs)
     = true.
Proof.
  split; [reflexivity|].
  exact (artifact_decides_scoring_mode "old/model.pkl" legacy_fs _ eq_refl).
Defined.

(** X21. The health endpoint never raises and never reports the database
    as "disconnected": it answers "healthy" with "connected" when the
    probe query runs, and otherwise "unhealthy" with the connection error
    as text and no database field. *)
Theorem health_never_disconnected (select_1 : result unit) :
  Main.h_database (Main.health_check select_1) <> Some "disconnected"
  /\ ((exists u, select_1 = Ok u)
      <-> Main.h_status (Main.health_check select_1) = "healthy"
          /\ Main.h_database (Main.health_check select_1) = Some "connected")
  /\ (forall e, select_1 = Raise e ->
      Main.h_status (Main.health_check select_1) = "unhealthy"
      /\ Main.h_database (Main.health_check select_1) = None
      /\ Main.h_error (Main.health_check select_1)
         = Some ("Cannot connect to database: " +:+ str_of_exn e)).
Proof.
  destruct select_1 as [u|e]; cbn.
  - split; [discriminate|]. split; [split; [done|by eexists]|discriminate].
  - split; [discriminate|]. split.
    + split; [intros [u Hu]; discriminate|intros [H _]; discriminate].
    + intros e' H. by injection H as <-.
Qed.

(* ===================================================================== *)
(** ** Further properties: interaction ratings *)
(* ===================================================================== *)

Lemma interaction_rating_values (row : InteractionRow) :
  (default false (i_completed row) = false /\ interaction_rating row = 0.0%float)
  \/ (default false (i_completed row) = true
      /\ (interaction_rating row = 4.0%float
          \/ interaction_rating row = 5.0%float
          \/ interaction_rating row = 6.0%float
          \/ interaction_rating row = 7.0%float)).
Proof.
  unfold interaction_rating.
  destruct (default false (i_completed row)); [right|left; done].
  split; [done|].
  destruct (present _ && present _); [|tauto].
  destruct (lt _ (-60)); [tauto|].
  destruct (lt _ 0); [tauto|].
  destruct (gt _ 120); tauto.
Qed.

(** X22. [create_user_routine_interactions] gives one interaction per
    workout row, in row order, for the requested user and the row's
    routine.  The rating is 0 for a workout that was not completed and one
    of 4, 5, 6, 7 for a completed one. *)
Theorem interaction_ratings
    (workout_data : string -> result (list InteractionRow)) (user_id : string)
    (rows : list InteractionRow) :
  workout_data user_id = Ok rows ->
  exists interactions,
    create_user_routine_interactions workout_data user_id = Ok interactions
    /\ map (fun i => fst (fst i)) interactions = map (fun _ => user_id) rows
    /\ map (fun i => snd (fst i)) interactions = map i_routine_id rows
    /\ Forall2 (fun row i =>
                  (default false (i_completed row) = false /\ snd i = 0.0%float)
                  \/ (default false (i_completed row) = true
                      /\ (snd i = 4.0%float \/ snd i = 5.0%float
                          \/ snd i = 6.0%float \/ snd i = 7.0%float)))
               rows interactions.
Proof.
  intros Hrows. unfold create_user_routine_interactions. rewrite Hrows.
  cbn [mbind result_bind bind].
  exists (map (fun row => (user_id, i_routine_id row, interaction_rating row)) rows).
  split; [by destruct rows|].
  split; [by rewrite map_map|]. split; [by rewrite map_map|].
  clear Hrows. induction rows as [|row rest IH]; simpl; constructor; [|done].
  apply interaction_rating_values.
Qed.

Lemma interaction_ratings_witness :
  exists interactions,
    create_user_routine_interactions (fun _ => Ok sample_interaction_rows) "u1"
      = Ok interactions
    /\ map snd interactions = [5.0; 7.0; 4.0; 0.0; 5.0]%float.
Proof.
  destruct (interaction_ratings (fun _ => Ok sample_interaction_rows) "u1"
              sample_interaction_rows eq_refl) as (interactions & Hrun & _).
  exists interactions. split; [exact Hrun|].
  vm_compute in Hrun. injection Hrun as <-. reflexivity.
Defined.

(* ===================================================================== *)
(** ** Further properties: what the truncation does to the rule path *)
(* ===================================================================== *)

Lemma rule_priority_value (row : RoutineRow) (features : Features) :
  RecommendationService.normalize_priority
    (RecommendationService._calculate_rule_based_score row features)
  = Ok (5 + Z.b2z (gt (completion_rate features) 0.7)
          + Z.b2z (lt (avg_time_delta features) (-60))
          + Z.b2z (both_keywords features row)).
Proof.
  unfold RecommendationService._calculate_rule_based_score, both_keywords.
  destruct (gt _ _), (lt _ _), (has_cardio features && _),
           (has_strength features && _); reflexivity.
Qed.

(** X23. Because the score is truncated, half a point alone never shows:
    on the rule path the priority of a routine is 5, plus 1 for a
    completion rate above 0.7, plus 1 for finishing more than a minute
    early on average, plus 1 only when the routine earns both keyword
    bonuses at once. *)
Theorem rule_priority_formula (row : RoutineRow) (features : Features) :
  RecommendationService.normalize_priority
    (RecommendationService._calculate_rule_based_score row features)
  = Ok (5 + Z.b2z (gt (completion_rate features) 0.7)
          + Z.b2z (lt (avg_time_delta features) (-60))
          + Z.b2z (has_cardio features
                   && contains "cardio" (lower (name row))
                   && (has_strength features
                       && (contains "strength" (lower (name row))
                           || contains "weight" (lower (name row)))))).
Proof.
  rewrite rule_priority_value. unfold both_keywords, any_in.
  cbn [existsb]. by rewrite orb_false_r.
Qed.

Section TwoValuedSort.
Context {A : Type} (key : A -> Z).

Lemma insert_desc_past (x : A) (front back : list A) :
  Forall (fun a => key x < key a) front ->
  insert_desc key x (front ++ back)%list = (front ++ insert_desc key x back)%list.
Proof.
  induction 1 as [|a front Ha _ IH]; simpl; [done|].
  destruct (Z.ltb_spec (key x) (key a)); [by rewrite IH|lia].
Qed.

Lemma insert_desc_front (x : A) (l : list A) :
  Forall (fun a => key a <= key x) l -> insert_desc key x l = x :: l.
Proof.
  destruct 1 as [|a l Ha _]; simpl; [done|].
  destruct (Z.ltb_spec (key x) (key a)); [lia|done].
Qed.

(** Sorting a list with two key values splits it, keeping the order
    within each part. *)
Lemma sort_reverse_two_valued (lo hi : Z) (l : list A) :
  lo < hi ->
  Forall (fun a => key a = lo \/ key a = hi) l ->
  sort_reverse key l
  = (filter (fun a => key a = hi) l ++ filter (fun a => key a = lo) l)%list.
Proof.
  intros Hlt. induction 1 as [|x xs Hx Hxs IH]; [done|].
  cbn [sort_reverse foldr]. fold (sort_reverse key xs). rewrite IH.
  assert (Hle : forall P `{!forall a, Decision (P a)} k,
            (forall a, P a -> key a = k) -> Forall (fun a => key a = k) (filter P xs)).
  { intros P ? k HP. apply Forall_forall. intros a Ha.
    apply list_elem_of_filter in Ha as [Ha _]. by apply HP. }
  rewrite !filter_cons. destruct Hx as [Hx|Hx].
  - rewrite decide_False by lia. rewrite decide_True by done.
    rewrite insert_desc_past.
    2:{ eapply Forall_impl; [apply (Hle (fun a => key a = hi) _ hi); done|].
        simpl. intros; lia. }
    f_equal. apply insert_desc_front.
    eapply Forall_impl; [apply (Hle (fun a => key a = lo) _ lo); done|].
    simpl. intros; lia.
  - rewrite decide_True by done. rewrite decide_False by lia.
    apply insert_desc_front. apply Forall_app. split.
    + eapply Forall_impl; [apply (Hle (fun a => key a = hi) _ hi); done|].
      simpl. intros; lia.
    + eapply Forall_impl; [apply (Hle (fun a => key a = lo) _ lo); done|].
      simpl. intros; lia.
Qed.

End TwoValuedSort.

Lemma filter_map_rule_recommendation (features : Features) (flag : bool)
    (routines : list RoutineRow) :
  filter (fun rec => er_priority rec = rule_base_priority features + Z.b2z flag)
         (map (rule_recommendation features) routines)
  = map (rule_recommendation features)
        (filter (fun row => both_keywords features row = flag) routines).
Proof.
  induction routines as [|row rest IH]; [done|].
  cbn [map]. rewrite !filter_cons, IH.
  assert (Hiff : er_priority (rule_recommendation features row)
                 = rule_base_priority features + Z.b2z flag
                 <-> both_keywords features row = flag).
  { cbn [rule_recommendation er_priority].
    destruct (both_keywords features row), flag; simpl; split; intros; try done; lia. }
  repeat case_decide; try done; tauto.
Qed.

Lemma rule_path_row (self : RecommendationService.t) (features : Features)
    (row : RoutineRow) :
  RecommendationService.use_ml self = false ->
  RecommendationService.recommend_row self features row
  = Ok (rule_recommendation features row).
Proof.
  intros Hml.
  unfold RecommendationService.recommend_row, RecommendationService.candidate_score.
  rewrite Hml, rule_priority_value. cbn [mbind result_bind bind].
  unfold rule_recommendation, rule_base_priority. reflexivity.
Qed.

(** X24. The ranking of the rule path.  With a model that is not in use,
    the existing recommendations are: first the routines that earn both
    keyword bonuses, then all the others, each group in library order, cut
    to five; the first group has a priority one above that of the
    second. *)
Theorem rule_path_ranking
    (self : RecommendationService.t) (uid : string) (routines : list RoutineRow)
    (features : Features) :
  RecommendationService.use_ml self = false ->
  RecommendationService._recommend_existing_routines self uid routines features
  = Ok (take 5
          (map (rule_recommendation features)
               (filter (fun row => both_keywords features row = true) routines
                ++ filter (fun row => both_keywords features row = false) routines)%list)).
Proof.
  intros Hml. unfold RecommendationService._recommend_existing_routines.
  destruct routines as [|row rest]; [done|].
  rewrite (for_each_total _ (rule_recommendation features))
    by (intros r; by apply rule_path_row).
  cbn [mbind result_bind bind]. do 2 f_equal.
  rewrite (sort_reverse_two_valued er_priority
             (rule_base_priority features) (rule_base_priority features + Z.b2z true)).
  - rewrite (filter_map_rule_recommendation features true).
    pose proof (filter_map_rule_recommendation features false (row :: rest)) as Hlo.
    cbn [Z.b2z] in Hlo. rewrite Z.add_0_r in Hlo. rewrite Hlo.
    by rewrite map_app.
  - simpl. lia.
  - apply Forall_forall. intros rec [r [<- _]]%list_elem_of_In%in_map_iff.
    cbn [rule_recommendation er_priority].
    destruct (both_keywords features r); simpl; lia.
Qed.

Lemma rule_path_ranking_witness :
  RecommendationService.use_ml untrained_service = false
  /\ map routine_id sample_recommendations = ["r3"; "r5"; "r1"; "r2"; "r4"]
  /\ RecommendationService._recommend_existing_routines
       untrained_service "u1" sample_library sample_features
     = Ok sample_recommendations.
Proof.
  split; [reflexivity|]. split; [reflexivity|].
  rewrite (rule_path_ranking untrained_service "u1" sample_library sample_features eq_refl).
  reflexivity.
Defined.

(** X25. A routine whose name matches at least the keywords that another
    name matches never scores lower, and never gets a lower priority, for
    the same user. *)
Theorem keyword_match_never_lowers_score
    (features : Features) (better other : RoutineRow) :
  (contains "cardio" (lower (name other)) = true ->
   contains "cardio" (lower (name better)) = true) ->
  (any_in ["strength"; "weight"] (lower (name other)) = true ->
   any_in ["strength"; "weight"] (lower (name better)) = true) ->
  PrimFloat.leb (RecommendationService._calculate_rule_based_score other features)
                (RecommendationService._calculate_rule_based_score better features)
    = true
  /\ exists p_other p_better,
       RecommendationService.normalize_priority
         (RecommendationService._calculate_rule_based_score other features) = Ok p_other
       /\ RecommendationService.normalize_priority
            (RecommendationService._calculate_rule_based_score better features)
          = Ok p_better
       /\ p_other <= p_better.
Proof.
  unfold RecommendationService._calculate_rule_based_score.
  destruct (gt _ _), (lt _ _), (has_cardio features), (has_strength features),
    (contains "cardio" (lower (name other))),
    (contains "cardio" (lower (name better))),
    (any_in _ (lower (name other))),
    (any_in _ (lower (name better)));
    intros H1 H2;
    try (specialize (H1 eq_refl); discriminate H1);
    try (specialize (H2 eq_refl); discriminate H2);
    (split; [reflexivity|]);
    (eexists _, _; split; [vm_compute; reflexivity
                          |split; [vm_compute; reflexivity|lia]]).
Qed.

Lemma keyword_match_never_lowers_score_witness :
  let better := {| id := "r3"; name := "Cardio and Strength Mix" |} in
  let other := {| id := "r2"; name := "Heavy Weight Day" |} in
  PrimFloat.leb (RecommendationService._calculate_rule_based_score other sample_features)
                (RecommendationService._calculate_rule_based_score better sample_features)
  = true.
Proof.
  intros better other.
  refine (proj1 (keyword_match_never_lowers_score sample_features better other _ _));
    intros _; reflexivity.
Defined.
